(** * Session-partitioned task store: model of [app/main.py] and its properties

    The development embeds the core of the task-management service
    (pydantic models, [InMemoryTaskRepository], [TaskService] and the
    endpoints that add logic of their own) as executable Rocq functions and
    proves the properties stated about it.

    Conventions of the embedding:
    - a Python [str] is a [string] whose characters are the code points
      U+0000..U+00FF; [len] is [String.length];
    - a Python [int] is a [Z];
    - [None] is the [None] of an [option]; a field that a request may leave
      out altogether is wrapped in one more [option];
    - an exception is a value of [exn]; a function that may raise returns a
      [result];
    - the clock ([datetime.utcnow().isoformat()]) and the identifier
      generator ([str(uuid.uuid4())]) are inputs of the operations that read
      them. *)

From Stdlib Require Import ZArith NArith Ascii String List Bool Lia.
From stdpp Require Import base option list gmap strings fin_maps.

Local Open Scope string_scope.
Local Open Scope Z_scope.

(** ** Strings as Python sees them *)

Module Py.

(** [str.isspace] on one character of the Latin-1 range: TAB..CR, FS..US,
    space, NEL and the no-break space. *)
Definition isspace (c : ascii) : bool :=
  let n := N_of_ascii c in
  ((9 <=? n) && (n <=? 13) || (28 <=? n) && (n <=? 32)
   || (n =? 133) || (n =? 160))%N.

(** [str.lower] on one character of the Latin-1 range: A..Z and the
    accented capitals (all of U+00C0..U+00DE but the multiplication sign)
    move up by 32. Outside this range Python's [lower] may change the
    length of a string; no proof below relies on the length it keeps here,
    only on its being a function that gives a non-empty string for a
    non-empty one. *)
Definition lower_char (c : ascii) : ascii :=
  let n := N_of_ascii c in
  if ((65 <=? n) && (n <=? 90)
      || (192 <=? n) && (n <=? 222) && negb (n =? 215))%N
  then ascii_of_N (n + 32) else c.

Fixpoint lower (s : string) : string :=
  match s with
  | EmptyString => EmptyString
  | String c s' => String (lower_char c) (lower s')
  end.

Fixpoint lstrip (s : string) : string :=
  match s with
  | EmptyString => EmptyString
  | String c s' => if isspace c then lstrip s' else s
  end.

Fixpoint rstrip (s : string) : string :=
  match s with
  | EmptyString => EmptyString
  | String c s' =>
      match rstrip s' with
      | EmptyString => if isspace c then EmptyString else String c EmptyString
      | r => String c r
      end
  end.

(** [s.strip()] *)
Definition strip (s : string) : string := rstrip (lstrip s).

(** [len(s)] *)
Definition len (s : string) : Z := Z.of_nat (String.length s).

(** Truth value of a string: the empty string is falsy. *)
Definition truthy (s : string) : bool :=
  match s with EmptyString => false | _ => true end.

(** [needle in hay] on strings: [needle] starts at some position of [hay]. *)
Fixpoint contains (hay needle : string) : bool :=
  String.prefix needle hay
  || match hay with
     | EmptyString => false
     | String _ hay' => contains hay' needle
     end.

Definition first_char (s : string) : option ascii :=
  match s with EmptyString => None | String c _ => Some c end.

Fixpoint last_char (s : string) : option ascii :=
  match s with
  | EmptyString => None
  | String c EmptyString => Some c
  | String _ s' => last_char s'
  end.

(** A string carries no surrounding whitespace when neither its first nor
    its last character is a space character. *)
Definition no_surrounding_space (s : string) : bool :=
  match first_char s, last_char s with
  | Some a, Some b => negb (isspace a) && negb (isspace b)
  | _, _ => true
  end.

End Py.

(** ** Exceptions and results *)

Inductive exn : Type :=
| HTTPException (status_code : Z) (detail : string)
| ValidationError
| AttributeError.

Inductive result (A : Type) : Type :=
| Ok (a : A)
| Raise (e : exn).
Arguments Ok {A} a.
Arguments Raise {A} e.

(** [result] is a monad; the [x ← r; k] notation sequences computations that
    may raise. *)
#[global] Instance result_ret : MRet result := fun A a => Ok a.
#[global] Instance result_bind : MBind result := fun A B k r =>
  match r with
  | Ok a => k a
  | Raise e => Raise e
  end.

(** A list comprehension whose element expression may raise: elements are
    built left to right and the first exception ends the comprehension. *)
Fixpoint comprehension {A B} (f : A -> result B) (l : list A) : result (list B) :=
  match l with
  | [] => Ok []
  | a :: l' => b ← f a; bs ← comprehension f l'; Ok (b :: bs)
  end.

(** A list comprehension with a condition that may raise. *)
Fixpoint comprehension_if {A} (p : A -> result bool) (l : list A) : result (list A) :=
  match l with
  | [] => Ok []
  | a :: l' =>
      keep ← p a; rest ← comprehension_if p l';
      Ok (if keep : bool then a :: rest else rest)
  end.

(** ** Enumerations *)

Inductive TaskStatus : Type := PENDING | IN_PROGRESS | COMPLETED | CANCELLED.

#[global] Instance TaskStatus_eq_dec : EqDecision TaskStatus.
Proof. solve_decision. Defined.

(** [TaskStatus.X.value]; a member of the enumeration is a [str] and compares
    equal to this string. *)
Definition TaskStatus_value (s : TaskStatus) : string :=
  match s with
  | PENDING => "PENDING"
  | IN_PROGRESS => "IN_PROGRESS"
  | COMPLETED => "COMPLETED"
  | CANCELLED => "CANCELLED"
  end.

(** [TaskStatus(v)]: the member whose value is [v], if any. *)
Definition TaskStatus_of_value (v : string) : option TaskStatus :=
  if String.eqb v "PENDING" then Some PENDING
  else if String.eqb v "IN_PROGRESS" then Some IN_PROGRESS
  else if String.eqb v "COMPLETED" then Some COMPLETED
  else if String.eqb v "CANCELLED" then Some CANCELLED
  else None.

(** ** Pydantic models

    A [Field] constraint belongs to the field's own schema and is checked on
    the value as received; a [field_validator] (mode "after") runs on the
    value that passed it. A [ValueError] raised by a validator surfaces as a
    [ValidationError]. *)

Module TaskBase.

(** [title_not_empty] *)
Definition title_not_empty (v : string) : result string :=
  if negb (Py.truthy v) || negb (Py.truthy (Py.strip v))
  then Raise ValidationError
  else Ok (Py.strip v).

(** [title: str = Field(..., min_length=3, max_length=200)] followed by its
    validator. *)
Definition title (v : string) : result string :=
  if (Py.len v <? 3) || (200 <? Py.len v) then Raise ValidationError
  else title_not_empty v.

(** [description: Optional[str] = Field(None, max_length=1000)] *)
Definition description (v : option string) : result (option string) :=
  match v with
  | Some d => if 1000 <? Py.len d then Raise ValidationError else Ok (Some d)
  | None => Ok None
  end.

(** [priority: int = Field(default=2, ge=1, le=4)] on a supplied value. *)
Definition priority (v : Z) : result Z :=
  if (v <? 1) || (4 <? v) then Raise ValidationError else Ok v.

End TaskBase.

Module TaskCreate.

(** A validated [TaskCreate] object. *)
Record t : Type := mk {
  title : string;
  description : option string;
  priority : Z;
  tags : option (list string);
  due_date : option string
}.

(** The members of a JSON request body, each of its declared JSON type.
    The outer [option] of [b_title], [b_priority] and [b_tags] tells whether
    the member is there at all; for [b_description] and [b_due_date] a
    missing member and [null] both give [None]. *)
Record body : Type := mk_body {
  b_title : option string;
  b_description : option string;
  b_priority : option Z;
  b_tags : option (option (list string));
  b_due_date : option string
}.

(** The constructor call of [TaskCreate] on the members of a body. *)
Definition validate (b : body) : result t :=
  ti ← match b_title b with
       | Some v => TaskBase.title v
       | None => Raise ValidationError
       end;
  de ← TaskBase.description (b_description b);
  pr ← match b_priority b with
       | Some v => TaskBase.priority v
       | None => Ok 2
       end;
  Ok {| title := ti; description := de; priority := pr;
        tags := default (Some []) (b_tags b); due_date := b_due_date b |}.

End TaskCreate.

Module TaskUpdate.

(** A validated [TaskUpdate] object together with its set of supplied
    fields: a field is [None] when the request left it out, [Some None] when
    it was set to [null] and [Some (Some v)] when it was given the value
    [v]. [model_dump(exclude_unset=True)] is the dict of the fields that are
    not [None] here. *)
Record t : Type := mk {
  title : option (option string);
  description : option (option string);
  status : option (option TaskStatus);
  priority : option (option Z);
  tags : option (option (list string));
  due_date : option (option string)
}.

(** The members of a JSON request body; the status arrives as a string. *)
Record body : Type := mk_body {
  b_title : option (option string);
  b_description : option (option string);
  b_status : option (option string);
  b_priority : option (option Z);
  b_tags : option (option (list string));
  b_due_date : option (option string)
}.

(** The object no field of which was supplied: its dump is the empty dict. *)
Definition unset : t :=
  {| title := None; description := None; status := None; priority := None;
     tags := None; due_date := None |}.

(** [not update_dict] for [update_dict = updates.model_dump(exclude_unset=True)] *)
Definition dump_is_empty (u : t) : bool :=
  match title u, description u, status u, priority u, tags u, due_date u with
  | None, None, None, None, None, None => true
  | _, _, _, _, _, _ => false
  end.

(** [title_not_empty_if_present] *)
Definition title_not_empty_if_present (v : option string) : result (option string) :=
  match v with
  | Some s =>
      if negb (Py.truthy s) || negb (Py.truthy (Py.strip s))
      then Raise ValidationError
      else Ok (if Py.truthy s then Some (Py.strip s) else Some s)
  | None => Ok None
  end.

(** [title: Optional[str] = Field(None, min_length=3, max_length=200)]
    followed by its validator, on a supplied value. *)
Definition validate_title (v : option string) : result (option string) :=
  match v with
  | Some s =>
      if (Py.len s <? 3) || (200 <? Py.len s) then Raise ValidationError
      else title_not_empty_if_present v
  | None => title_not_empty_if_present v
  end.

(** Validation of a supplied member that may be [null]. *)
Definition nullable {A B} (f : A -> result B) (v : option A) : result (option B) :=
  match v with
  | Some a => b ← f a; Ok (Some b)
  | None => Ok None
  end.

(** Validation of a member that may be left out. *)
Definition supplied {A B} (f : A -> result B) (v : option A) : result (option B) :=
  nullable f v.

(** The constructor call of [TaskUpdate] on the members of a body. *)
Definition validate (b : body) : result t :=
  ti ← supplied validate_title (b_title b);
  de ← supplied TaskBase.description (b_description b);
  st ← supplied (nullable (fun v =>
          match TaskStatus_of_value v with
          | Some s => Ok s
          | None => Raise ValidationError
          end)) (b_status b);
  pr ← supplied (nullable TaskBase.priority) (b_priority b);
  Ok {| title := ti; description := de; status := st; priority := pr;
        tags := b_tags b; due_date := b_due_date b |}.

End TaskUpdate.

(** A stored task: the dict built by [create_task] and kept in the
    repository. Its nine keys never change; [dict.update] with a dump of a
    [TaskUpdate] overwrites some of six of them, possibly with [None]. *)
Module TaskDict.

Record t : Type := mk {
  id : string;
  title : option string;
  description : option string;
  priority : option Z;
  tags : option (list string);
  due_date : option string;
  status : option TaskStatus;
  created_at : string;
  updated_at : string
}.

#[global] Instance eq_dec : EqDecision t.
Proof. solve_decision. Defined.

(** [task.update(updates)] for the dump [updates] of a [TaskUpdate]. *)
Definition update (task : t) (updates : TaskUpdate.t) : t :=
  {| id := id task;
     title := default (title task) (TaskUpdate.title updates);
     description := default (description task) (TaskUpdate.description updates);
     priority := default (priority task) (TaskUpdate.priority updates);
     tags := default (tags task) (TaskUpdate.tags updates);
     due_date := default (due_date task) (TaskUpdate.due_date updates);
     status := default (status task) (TaskUpdate.status updates);
     created_at := created_at task;
     updated_at := updated_at task |}.

(** [task["updated_at"] = now] *)
Definition set_updated_at (task : t) (now : string) : t :=
  {| id := id task; title := title task; description := description task;
     priority := priority task; tags := tags task; due_date := due_date task;
     status := status task; created_at := created_at task;
     updated_at := now |}.

(** [task["status"] == v] for a string [v]: [None] equals no string. *)
Definition status_is (v : string) (task : t) : bool :=
  match status task with
  | Some s => String.eqb (TaskStatus_value s) v
  | None => false
  end.

End TaskDict.

(** The [Task] model returned to callers. *)
Module Task.

Record t : Type := mk {
  id : string;
  title : string;
  description : option string;
  priority : Z;
  status : TaskStatus;
  tags : list string;
  due_date : option string;
  created_at : string;
  updated_at : string
}.

(** A field declared without [Optional] rejects [None]. *)
Definition required {A} (v : option A) : result A :=
  match v with
  | Some a => Ok a
  | None => Raise ValidationError
  end.

(** The constructor call of [Task] on the entries of a stored dict [d]:
    every field is validated again, the title with the
    constraints and the validator inherited from [TaskBase]. *)
Definition new (d : TaskDict.t) : result t :=
  ti ← (v ← required (TaskDict.title d); TaskBase.title v);
  de ← TaskBase.description (TaskDict.description d);
  pr ← (v ← required (TaskDict.priority d); TaskBase.priority v);
  st ← required (TaskDict.status d);
  ta ← required (TaskDict.tags d);
  Ok {| id := TaskDict.id d; title := ti; description := de; priority := pr;
        status := st; tags := ta; due_date := TaskDict.due_date d;
        created_at := TaskDict.created_at d;
        updated_at := TaskDict.updated_at d |}.

End Task.

Module TaskStats.

Record t : Type := mk {
  total : Z;
  pending : Z;
  in_progress : Z;
  completed : Z;
  cancelled : Z
}.

End TaskStats.

(** ** The repository interface *)

(** [IRepository]: the five abstract methods. A method that changes the
    repository returns the repository it leaves behind; [update] is also
    handed the reading of the clock it takes. *)
Class IRepository (R : Type) : Type := {
  find_all : R -> string -> list TaskDict.t;
  find_by_id : R -> string -> string -> option TaskDict.t;
  create : R -> string -> TaskDict.t -> R * TaskDict.t;
  update : R -> string -> string -> TaskUpdate.t -> string -> R * option TaskDict.t;
  delete : R -> string -> string -> R * bool
}.

(** ** The in-memory repository *)

(** [self._storage: Dict[str, List[Dict]]] *)
Record InMemoryTaskRepository : Type := Repo {
  _storage : gmap string (list TaskDict.t)
}.

(** [l.remove(x)] for an [x] that occurs in [l]: the first element equal to
    [x] goes. *)
Fixpoint list_remove {A} `{EqDecision A} (x : A) (l : list A) : list A :=
  match l with
  | [] => []
  | y :: l' => if decide (y = x) then l' else y :: list_remove x l'
  end.

Module InMemory.

(** [self._storage.get(session_id, [])] *)
Definition find_all (self : InMemoryTaskRepository) (session_id : string)
  : list TaskDict.t :=
  default [] (_storage self !! session_id).

(** The position and the value of the first task of [tasks] whose id is
    [task_id]: what [next((t for t in tasks if t["id"] == task_id), None)]
    refers to. *)
Definition first_with_id (task_id : string) (tasks : list TaskDict.t)
  : option (nat * TaskDict.t) :=
  list_find (fun t => TaskDict.id t = task_id) tasks.

Definition find_by_id (self : InMemoryTaskRepository)
  (session_id task_id : string) : option TaskDict.t :=
  snd <$> first_with_id task_id (find_all self session_id).

(** The new list is created when the session has none, and the task is
    appended to the session's list. *)
Definition create (self : InMemoryTaskRepository) (session_id : string)
  (task : TaskDict.t) : InMemoryTaskRepository * TaskDict.t :=
  (Repo (<[session_id := (find_all self session_id ++ [task])%list]>
           (_storage self)),
   task).

(** The task found is changed in place: the dict at its position in the
    session's list takes the new entries and then the new time stamp. *)
Definition update (self : InMemoryTaskRepository)
  (session_id task_id : string) (updates : TaskUpdate.t) (now : string)
  : InMemoryTaskRepository * option TaskDict.t :=
  let tasks := find_all self session_id in
  match first_with_id task_id tasks with
  | Some (i, task) =>
      let task' := TaskDict.set_updated_at (TaskDict.update task updates) now in
      (Repo (<[session_id := <[i := task']> tasks]> (_storage self)), Some task')
  | None => (self, None)
  end.

Definition delete (self : InMemoryTaskRepository)
  (session_id task_id : string) : InMemoryTaskRepository * bool :=
  let tasks := find_all self session_id in
  match find_by_id self session_id task_id with
  | Some task =>
      (Repo (<[session_id := list_remove task tasks]> (_storage self)), true)
  | None => (self, false)
  end.

End InMemory.

#[global] Instance InMemoryTaskRepository_IRepository
  : IRepository InMemoryTaskRepository := {
  find_all := InMemory.find_all;
  find_by_id := InMemory.find_by_id;
  create := InMemory.create;
  update := InMemory.update;
  delete := InMemory.delete
}.

(** ** The service layer *)

(** [sum(1 for t in tasks if p t)] *)
Fixpoint sum_ones {A} (p : A -> bool) (tasks : list A) : Z :=
  match tasks with
  | [] => 0
  | t :: tasks' => (if p t then 1 else 0) + sum_ones p tasks'
  end.

Module TaskService.
Section Service.
Context {R : Type} `{IRepository R}.

(** A stored dict is never empty, so [if task] and [if not task] only tell
    a dict from [None]. *)

Definition get_all_tasks (self : R) (session_id : string)
  (status : option string) : result (list Task.t) :=
  let tasks := find_all self session_id in
  let tasks :=
    match status with
    | Some v =>
        if Py.truthy v then List.filter (TaskDict.status_is v) tasks else tasks
    | None => tasks
    end in
  comprehension Task.new tasks.

Definition get_task_by_id (self : R) (session_id task_id : string)
  : result Task.t :=
  match find_by_id self session_id task_id with
  | None => Raise (HTTPException 404 "Task not found")
  | Some task => Task.new task
  end.

(** [uuid] is the identifier drawn by [uuid.uuid4()] and [now] the reading
    of the clock. The task is in the repository before [Task] validates the
    dict that is returned. *)
Definition create_task (self : R) (session_id : string)
  (task_data : TaskCreate.t) (uuid now : string) : R * result Task.t :=
  let task_dict :=
    {| TaskDict.id := uuid;
       TaskDict.title := Some (TaskCreate.title task_data);
       TaskDict.description := TaskCreate.description task_data;
       TaskDict.priority := Some (TaskCreate.priority task_data);
       TaskDict.tags := TaskCreate.tags task_data;
       TaskDict.due_date := TaskCreate.due_date task_data;
       TaskDict.status := Some PENDING;
       TaskDict.created_at := now;
       TaskDict.updated_at := now |} in
  let '(self', created) := create self session_id task_dict in
  (self', Task.new created).

Definition update_task (self : R) (session_id task_id : string)
  (updates : TaskUpdate.t) (now : string) : R * result Task.t :=
  if TaskUpdate.dump_is_empty updates
  then (self, Raise (HTTPException 400 "No fields to update"))
  else
    let '(self', updated) := update self session_id task_id updates now in
    match updated with
    | None => (self', Raise (HTTPException 404 "Task not found"))
    | Some task => (self', Task.new task)
    end.

Definition delete_task (self : R) (session_id task_id : string)
  : R * result unit :=
  let '(self', deleted) := delete self session_id task_id in
  if deleted : bool then (self', Ok tt)
  else (self', Raise (HTTPException 404 "Task not found")).

Definition get_statistics (self : R) (session_id : string) : TaskStats.t :=
  let tasks := find_all self session_id in
  {| TaskStats.total := Z.of_nat (length tasks);
     TaskStats.pending :=
       sum_ones (TaskDict.status_is (TaskStatus_value PENDING)) tasks;
     TaskStats.in_progress :=
       sum_ones (TaskDict.status_is (TaskStatus_value IN_PROGRESS)) tasks;
     TaskStats.completed :=
       sum_ones (TaskDict.status_is (TaskStatus_value COMPLETED)) tasks;
     TaskStats.cancelled :=
       sum_ones (TaskDict.status_is (TaskStatus_value CANCELLED)) tasks |}.

(** The condition of the comprehension in [search_tasks]:
    [query_lower in t["title"].lower() or
     (t.get("description") and query_lower in t["description"].lower())].
    [None] has no [lower]. *)
Definition search_condition (query_lower : string) (t : TaskDict.t)
  : result bool :=
  match TaskDict.title t with
  | None => Raise AttributeError
  | Some title =>
      if Py.contains (Py.lower title) query_lower then Ok true
      else
        match TaskDict.description t with
        | Some description =>
            if Py.truthy description
            then Ok (Py.contains (Py.lower description) query_lower)
            else Ok false
        | None => Ok false
        end
  end.

Definition search_tasks (self : R) (session_id query : string)
  : result (list Task.t) :=
  let tasks := find_all self session_id in
  let query_lower := Py.lower query in
  filtered ← comprehension_if (search_condition query_lower) tasks;
  comprehension Task.new filtered.

End Service.
End TaskService.

(** ** Endpoints that add logic of their own

    [repository] is the single [InMemoryTaskRepository] of the process. *)

Module Endpoint.

Definition list_tasks (repository : InMemoryTaskRepository)
  (status : option string) (session_id : string) : result (list Task.t) :=
  TaskService.get_all_tasks repository session_id status.

Definition search_tasks (repository : InMemoryTaskRepository)
  (q session_id : string) : result (list Task.t) :=
  if Py.len q <? 2
  then Raise (HTTPException 400 "Query must be at least 2 characters")
  else TaskService.search_tasks repository session_id q.

Definition delete_all_tasks (repository : InMemoryTaskRepository)
  (session_id : string) : InMemoryTaskRepository :=
  match _storage repository !! session_id with
  | Some _ => Repo (<[session_id := []]> (_storage repository))
  | None => repository
  end.

(** [PATCH /tasks/{task_id}/status]: the change set is
    [TaskUpdate(status=status)], which names the status and nothing else. *)
Definition update_task_status (repository : InMemoryTaskRepository)
  (task_id : string) (status : TaskStatus) (session_id now : string)
  : InMemoryTaskRepository * result Task.t :=
  TaskService.update_task repository session_id task_id
    (TaskUpdate.mk None None (Some (Some status)) None None None) now.

End Endpoint.

(** ** Session management *)

Module SessionManager.

(** The arguments of one [response.set_cookie] call. *)
Record cookie : Type := mk_cookie {
  key : string;
  value : string;
  httponly : bool;
  samesite : string;
  secure : bool;
  max_age : Z
}.

(** [get_or_create_session]: [cookies] are the cookies of the request,
    [response] the cookies set on the response so far and [uuid] the
    identifier that [uuid.uuid4()] yields when it is asked. A cookie that is
    missing or empty is no session. The result is the session id and the
    cookies set on the response. *)
Definition get_or_create_session (cookies : gmap string string)
  (response : list cookie) (uuid : string) : string * list cookie :=
  let fresh :=
    (uuid,
     (response ++ [ {| key := "session_id"; value := uuid; httponly := true;
                       samesite := "none"; secure := true;
                       max_age := 86400 * 30 |} ])%list) in
  match cookies !! "session_id" with
  | Some session_id =>
      if Py.truthy session_id then (session_id, response) else fresh
  | None => fresh
  end.

End SessionManager.

(** [get_session_id] *)
Definition get_session_id (cookies : gmap string string)
  (response : list SessionManager.cookie) (uuid : string)
  : string * list SessionManager.cookie :=
  SessionManager.get_or_create_session cookies response uuid.

(** ** Requests that change the repository

    The requests of the transport layer that reach a changing operation,
    each with the validated object it hands to the service. *)

Inductive request : Type :=
| POST_tasks (session_id : string) (task : TaskCreate.t) (uuid : string)
| PUT_task (session_id task_id : string) (task : TaskUpdate.t)
| DELETE_task (session_id task_id : string)
| DELETE_tasks (session_id : string).

(** The repository after one request served at clock reading [now]; what
    the request answers does not matter here. *)
Definition handle (repository : InMemoryTaskRepository) (now : string)
  (req : request) : InMemoryTaskRepository :=
  match req with
  | POST_tasks session_id task uuid =>
      fst (TaskService.create_task repository session_id task uuid now)
  | PUT_task session_id task_id task =>
      fst (TaskService.update_task repository session_id task_id task now)
  | DELETE_task session_id task_id =>
      fst (TaskService.delete_task repository session_id task_id)
  | DELETE_tasks session_id =>
      Endpoint.delete_all_tasks repository session_id
  end.

(** The repository after a history of requests, each paired with the clock
    reading at which it is served, oldest first. *)
Fixpoint serve (repository : InMemoryTaskRepository)
  (history : list (string * request)) : InMemoryTaskRepository :=
  match history with
  | [] => repository
  | (now, req) :: history' => serve (handle repository now req) history'
  end.

(** The repository of a process that has just started:
    [repository = InMemoryTaskRepository()]. *)
Definition repository0 : InMemoryTaskRepository := Repo ∅.

(** Time stamps compare as text. No request of [history] was served at a
    clock reading later than [now]: the clock has not run backwards since. *)
Definition clock_not_after (now : string) (history : list (string * request))
  : bool :=
  forallb (fun served => String.leb (fst served) now) history.

(** Every task stored carries an [updated_at] that is not later than [now]. *)
Definition stamped_up_to (now : string) (repository : InMemoryTaskRepository)
  : Prop :=
  forall session_id task,
    In task (InMemory.find_all repository session_id) ->
    String.leb (TaskDict.updated_at task) now = true.

(** How a field stands after an update: as before when the change set does
    not name it, at the supplied value ([None] included) when it does. *)
Definition changed_as {A} (change : option A) (old new : A) : Prop :=
  match change with
  | None => new = old
  | Some v => new = v
  end.

(** The session a request belongs to. *)
Definition session_of (req : request) : string :=
  match req with
  | POST_tasks session_id _ _ => session_id
  | PUT_task session_id _ _ => session_id
  | DELETE_task session_id _ => session_id
  | DELETE_tasks session_id => session_id
  end.

(** What a changing request answers at clock reading [now]: the task that a
    creation or an update returns, nothing for a deletion that succeeds and
    for a delete-all, or the exception raised. *)
Definition answer (repository : InMemoryTaskRepository) (now : string)
  (req : request) : result (option Task.t) :=
  match req with
  | POST_tasks session_id task uuid =>
      T ← snd (TaskService.create_task repository session_id task uuid now);
      Ok (Some T)
  | PUT_task session_id task_id task =>
      T ← snd (TaskService.update_task repository session_id task_id task now);
      Ok (Some T)
  | DELETE_task session_id task_id =>
      _ ← snd (TaskService.delete_task repository session_id task_id);
      Ok None
  | DELETE_tasks session_id => Ok None
  end.

(** Two repositories answer every reading operation of session [s] alike:
    list (with any filter), get (of any id), search (for any query) and
    statistics. *)
Definition same_answers (r1 r2 : InMemoryTaskRepository) (s : string) : Prop :=
  (forall status,
     TaskService.get_all_tasks r1 s status = TaskService.get_all_tasks r2 s status)
  /\ (forall task_id,
        TaskService.get_task_by_id r1 s task_id
        = TaskService.get_task_by_id r2 s task_id)
  /\ (forall query,
        TaskService.search_tasks r1 s query = TaskService.search_tasks r2 s query)
  /\ TaskService.get_statistics r1 s = TaskService.get_statistics r2 s.

(** ** Data of the examples *)

Definition t0 : string := "2024-01-01T00:00:00".
Definition t1 : string := "2024-01-01T00:00:01".
Definition t2 : string := "2024-01-01T00:00:02".
Definition t3 : string := "2024-01-01T00:00:03".
Definition t4 : string := "2024-01-01T00:00:04".

(** The draft [{title: "Plan release", priority: 3}] once validated. *)
Definition plan_release : TaskCreate.t :=
  TaskCreate.mk "Plan release" None 3 (Some []) None.

(** A change set that names the priority only. *)
Definition priority_1 : TaskUpdate.t :=
  TaskUpdate.mk None None None (Some (Some 1)) None None.

(** The repository after one task was created in session ["s1"]. *)
Definition one_task : InMemoryTaskRepository :=
  serve repository0 [(t0, POST_tasks "s1" plan_release "id1")].

(** The body [{title: "Plan release", tags: null}]. *)
Definition null_tags_body : TaskCreate.body :=
  TaskCreate.mk_body (Some "Plan release") None None (Some None) None.

(** The body [{title: "  a  "}]: five characters, one of them not a space. *)
Definition padded_title_body : TaskCreate.body :=
  TaskCreate.mk_body (Some "  a  ") None None None None.

(** The bodies [{status: null}] and [{title: null}] of an update. *)
Definition null_status_body : TaskUpdate.body :=
  TaskUpdate.mk_body None None (Some None) None None None.

Definition null_title_body : TaskUpdate.body :=
  TaskUpdate.mk_body (Some None) None None None None None.

Definition null_status : TaskUpdate.t :=
  TaskUpdate.mk None None (Some None) None None None.

Definition null_title : TaskUpdate.t :=
  TaskUpdate.mk (Some None) None None None None None.

(** The draft [{title: "Fix Bug"}] once validated. *)
Definition fix_bug : TaskCreate.t :=
  TaskCreate.mk "Fix Bug" None 2 (Some []) None.

(** The stored status of a task is exactly [o] ([None] for a status that an
    update set to [null]). *)
Definition has_status (o : option TaskStatus) (task : TaskDict.t) : bool :=
  bool_decide (TaskDict.status task = o).

(** The number of elements of a list that satisfy [p]. *)
Definition count {A} (p : A -> bool) (l : list A) : Z :=
  Z.of_nat (length (List.filter p l)).

(** The history: a task is created, then an update sets its status to
    [null]. *)
Definition status_nulled : list (string * request) :=
  [(t0, POST_tasks "s1" plan_release "id1");
   (t1, PUT_task "s1" "id1" null_status)].

(** The history: a task titled "Fix Bug" is created, then an update sets
    its title to [null]. *)
Definition title_nulled : list (string * request) :=
  [(t0, POST_tasks "s1" fix_bug "id1");
   (t1, PUT_task "s1" "id1" null_title)].

(** The search predicate as it is stated: the lower-cased query occurs in
    the lower-cased title, or the task has a description and the lower-cased
    query occurs in the lower-cased description. *)
Definition matches (query : string) (task : TaskDict.t) : bool :=
  match TaskDict.title task with
  | Some title => Py.contains (Py.lower title) (Py.lower query)
  | None => false
  end
  || match TaskDict.description task with
     | Some description => Py.contains (Py.lower description) (Py.lower query)
     | None => false
     end.

(** The draft that the body [{title: "  ab "}] becomes at the boundary. *)
Definition padded_ab_body : TaskCreate.body :=
  TaskCreate.mk_body (Some "  ab ") None None None None.

Definition short_ab : TaskCreate.t :=
  TaskCreate.mk "ab" None 2 (Some []) None.

(** Change sets that name the status only. *)
Definition to_status (status : TaskStatus) : TaskUpdate.t :=
  TaskUpdate.mk None None (Some (Some status)) None None None.

(** The history: three tasks are created in session ["s1"], then one is
    marked [COMPLETED] and another [IN_PROGRESS]. *)
Definition three_tasks : list (string * request) :=
  [(t0, POST_tasks "s1" plan_release "id1");
   (t1, POST_tasks "s1" fix_bug "id2");
   (t2, POST_tasks "s1" (TaskCreate.mk "Other" None 2 (Some []) None) "id3");
   (t3, PUT_task "s1" "id1" (to_status COMPLETED));
   (t4, PUT_task "s1" "id2" (to_status IN_PROGRESS))].

(** The history: the tasks "Fix Bug" and "Other" are created in ["s1"]. *)
Definition two_tasks : list (string * request) :=
  [(t0, POST_tasks "s1" fix_bug "id1");
   (t1, POST_tasks "s1" (TaskCreate.mk "Other" None 2 (Some []) None) "id2")].

(** ** Notions used by the further properties *)

(** The status of a returned task is the string [v]. *)
Definition task_status_is (v : string) (T : Task.t) : bool :=
  String.eqb (TaskStatus_value (Task.status T)) v.

(** Every identifier drawn for a creation of [history] is the id of no task
    that the session holds when the creation is served. *)
Fixpoint fresh_uuids (repository : InMemoryTaskRepository)
  (history : list (string * request)) : Prop :=
  match history with
  | [] => True
  | (now, req) :: history' =>
      match req with
      | POST_tasks session_id _ uuid =>
          InMemory.find_by_id repository session_id uuid = None
      | _ => True
      end
      /\ fresh_uuids (handle repository now req) history'
  end.

(** The readings never decrease, starting from [last]. *)
Fixpoint nondecreasing (last : string) (readings : list string) : bool :=
  match readings with
  | [] => true
  | a :: rest => String.leb last a && nondecreasing a rest
  end.

(** Every stored task was created no later than it was last updated, and
    last updated no later than [clock]. *)
Definition stamps_ordered (clock : string) (repository : InMemoryTaskRepository)
  : Prop :=
  forall session_id task,
    In task (InMemory.find_all repository session_id) ->
    String.leb (TaskDict.created_at task) (TaskDict.updated_at task) = true
    /\ String.leb (TaskDict.updated_at task) clock = true.

(** A stored dict and the task returned for it. *)
Definition view_of (d : TaskDict.t) (T : Task.t) : Prop := Task.new d = Ok T.

(** [needle] occurs in [hay]: some text before it and some text after it
    make up [hay]. *)
Definition occurs_in (needle hay : string) : Prop :=
  exists pre post, hay = pre ++ needle ++ post.

(** The repository after the draft with the one-letter title ["a"] was
    stored in session ["s1"]. *)
Definition one_short_title : InMemoryTaskRepository :=
  serve repository0
    [(t0, POST_tasks "s1" (TaskCreate.mk "a" None 2 (Some []) None) "id1")].

(** No two tasks of a session share an id. *)
Definition ids_unique (repository : InMemoryTaskRepository) : Prop :=
  forall session_id,
    NoDup (List.map TaskDict.id (InMemory.find_all repository session_id)).

(** * Properties *)

(** ** Sessions are isolated *)

Section Isolation.

Implicit Types (r : InMemoryTaskRepository) (s : string).

Lemma find_all_partition r1 r2 s :
  _storage r1 !! s = _storage r2 !! s ->
  InMemory.find_all r1 s = InMemory.find_all r2 s.
Proof. unfold InMemory.find_all. intros ->. reflexivity. Qed.

Lemma find_by_id_partition r1 r2 s task_id :
  _storage r1 !! s = _storage r2 !! s ->
  InMemory.find_by_id r1 s task_id = InMemory.find_by_id r2 s task_id.
Proof.
  intros E. unfold InMemory.find_by_id.
  rewrite (find_all_partition r1 r2 s E). reflexivity.
Qed.

(** What a reading operation answers is a function of the partition of its
    session. *)
Lemma reads_partition r1 r2 s :
  _storage r1 !! s = _storage r2 !! s -> same_answers r1 r2 s.
Proof.
  intros E.
  pose proof (find_all_partition r1 r2 s E) as Ha.
  unfold same_answers, TaskService.get_all_tasks, TaskService.get_task_by_id,
    TaskService.search_tasks, TaskService.get_statistics.
  cbn [find_all find_by_id InMemoryTaskRepository_IRepository].
  rewrite Ha. repeat split; try reflexivity.
  intros task_id. rewrite (find_by_id_partition r1 r2 s task_id E).
  reflexivity.
Qed.

Lemma create_writes_own r s s' task :
  s <> s' ->
  _storage (fst (InMemory.create r s task)) !! s' = _storage r !! s'.
Proof. intros Hne. cbn. apply lookup_insert_ne. exact Hne. Qed.

Lemma update_writes_own r s s' task_id updates now :
  s <> s' ->
  _storage (fst (InMemory.update r s task_id updates now)) !! s'
  = _storage r !! s'.
Proof.
  intros Hne. unfold InMemory.update.
  destruct (InMemory.first_with_id task_id (InMemory.find_all r s))
    as [[i task]|]; cbn; [apply lookup_insert_ne; exact Hne | reflexivity].
Qed.

Lemma delete_writes_own r s s' task_id :
  s <> s' ->
  _storage (fst (InMemory.delete r s task_id)) !! s' = _storage r !! s'.
Proof.
  intros Hne. unfold InMemory.delete.
  destruct (InMemory.find_by_id r s task_id);
    cbn; [apply lookup_insert_ne; exact Hne | reflexivity].
Qed.

Lemma delete_all_writes_own r s s' :
  s <> s' ->
  _storage (Endpoint.delete_all_tasks r s) !! s' = _storage r !! s'.
Proof.
  intros Hne. unfold Endpoint.delete_all_tasks.
  destruct (_storage r !! s);
    cbn; [apply lookup_insert_ne; exact Hne | reflexivity].
Qed.

(** A request of one session leaves the partition of every other session
    as it was. *)
Lemma handle_writes_own r now req s s' :
  s <> s' -> session_of req = s ->
  _storage (handle r now req) !! s' = _storage r !! s'.
Proof.
  intros Hne <-.
  destruct req as [x d u|x i u|x i|x]; cbn [handle session_of] in *.
  - unfold TaskService.create_task.
    cbn [create InMemoryTaskRepository_IRepository].
    match goal with
    | |- context [InMemory.create r x ?t] =>
        pose proof (create_writes_own r x s' t Hne) as Hc;
        destruct (InMemory.create r x t) as [r' c]
    end.
    exact Hc.
  - unfold TaskService.update_task.
    destruct (TaskUpdate.dump_is_empty u); [reflexivity|].
    cbn [update InMemoryTaskRepository_IRepository].
    pose proof (update_writes_own r x s' i u now Hne) as Hu.
    destruct (InMemory.update r x i u now) as [r' [t|]]; exact Hu.
  - unfold TaskService.delete_task.
    cbn [delete InMemoryTaskRepository_IRepository].
    pose proof (delete_writes_own r x s' i Hne) as Hd.
    destruct (InMemory.delete r x i) as [r' [|]]; exact Hd.
  - apply delete_all_writes_own. exact Hne.
Qed.

(** What a request makes of the partition of its own session depends on
    that partition only. *)
Lemma handle_reads_own r1 r2 now req s :
  session_of req = s ->
  _storage r1 !! s = _storage r2 !! s ->
  _storage (handle r1 now req) !! s = _storage (handle r2 now req) !! s.
Proof.
  intros <- E.
  destruct req as [x d u|x i u|x i|x]; cbn [handle session_of] in *;
    pose proof (find_all_partition r1 r2 x E) as Ha.
  - unfold TaskService.create_task.
    cbn [create InMemoryTaskRepository_IRepository InMemory.create fst _storage].
    rewrite !lookup_insert_eq, Ha. reflexivity.
  - unfold TaskService.update_task.
    destruct (TaskUpdate.dump_is_empty u); [exact E|].
    cbn [update InMemoryTaskRepository_IRepository].
    unfold InMemory.update. rewrite Ha.
    destruct (InMemory.first_with_id i (InMemory.find_all r2 x)) as [[k t]|];
      cbn [fst _storage]; [rewrite !lookup_insert_eq; reflexivity | exact E].
  - unfold TaskService.delete_task.
    cbn [delete InMemoryTaskRepository_IRepository].
    unfold InMemory.delete.
    rewrite (find_by_id_partition r1 r2 x i E), Ha.
    destruct (InMemory.find_by_id r2 x i) as [t|];
      cbn [fst _storage]; [rewrite !lookup_insert_eq; reflexivity | exact E].
  - unfold Endpoint.delete_all_tasks. rewrite E.
    destruct (_storage r2 !! x) as [l|] eqn:E2;
      cbn [_storage]; [rewrite !lookup_insert_eq; reflexivity|].
    rewrite E, E2. reflexivity.
Qed.

End Isolation.

(** What a changing request answers depends on the partition of its own
    session only. *)
Lemma answer_reads_own (r1 r2 : InMemoryTaskRepository) (now : string)
  (req : request) (s : string) :
  session_of req = s ->
  _storage r1 !! s = _storage r2 !! s ->
  answer r1 now req = answer r2 now req.
Proof.
  intros <- E.
  destruct req as [x d u|x i u|x i|x]; cbn [answer session_of] in *;
    pose proof (find_all_partition r1 r2 x E) as Ha.
  - unfold TaskService.create_task.
    cbn [create InMemoryTaskRepository_IRepository InMemory.create snd].
    reflexivity.
  - unfold TaskService.update_task.
    destruct (TaskUpdate.dump_is_empty u); [reflexivity|].
    cbn [update InMemoryTaskRepository_IRepository].
    unfold InMemory.update. rewrite Ha.
    destruct (InMemory.first_with_id i (InMemory.find_all r2 x)) as [[k t]|];
      reflexivity.
  - unfold TaskService.delete_task.
    cbn [delete InMemoryTaskRepository_IRepository].
    unfold InMemory.delete.
    rewrite (find_by_id_partition r1 r2 x i E).
    destruct (InMemory.find_by_id r2 x i) as [t|]; reflexivity.
  - reflexivity.
Qed.

(** C1. Session isolation. A changing request of session [S1] leaves the
    partition of any other session [S2] untouched, so list, get, search and
    statistics of [S2] answer after it what they answered before it, and so
    does every changing request of [S2]. Every operation reads nothing but
    the partition of its own session: the four reading operations answer
    alike in any two repositories that agree on that partition, and both
    what a changing request answers and what it makes of the partition of
    its session are the same in any two repositories that agree on that
    partition. In particular a task created under [S1] is not seen under
    [S2], and no create, update or delete of [S2] returns it. *)
Theorem session_isolation (repository : InMemoryTaskRepository)
  (S1 S2 : string) (req : request) (now : string) :
  S1 <> S2 ->
  session_of req = S1 ->
  _storage (handle repository now req) !! S2 = _storage repository !! S2
  /\ same_answers (handle repository now req) repository S2
  /\ (forall other : InMemoryTaskRepository,
        _storage other !! S2 = _storage repository !! S2 ->
        same_answers other repository S2)
  /\ (forall other : InMemoryTaskRepository,
        _storage other !! S1 = _storage repository !! S1 ->
        _storage (handle other now req) !! S1
        = _storage (handle repository now req) !! S1
        /\ answer other now req = answer repository now req)
  /\ (forall (later : string) (req2 : request),
        session_of req2 = S2 ->
        answer (handle repository now req) later req2
        = answer repository later req2
        /\ _storage (handle (handle repository now req) later req2) !! S2
           = _storage (handle repository later req2) !! S2).
Proof.
  intros Hne Hreq.
  pose proof (handle_writes_own repository now req S1 S2 Hne Hreq) as Hw.
  split; [exact Hw|]. split; [|split; [|split]].
  - apply reads_partition. exact Hw.
  - intros other Ho. apply reads_partition. exact Ho.
  - intros other Ho. split.
    + apply handle_reads_own; assumption.
    + apply (answer_reads_own other repository now req S1); assumption.
  - intros later req2 Hreq2. split.
    + apply (answer_reads_own _ _ later req2 S2); assumption.
    + apply handle_reads_own; assumption.
Qed.

Lemma session_isolation_witness :
  let req := PUT_task "s1" "id1" priority_1 in
  let req2 := POST_tasks "s2" fix_bug "id1" in
  "s1" <> "s2"
  /\ session_of req = "s1"
  /\ _storage (handle one_task t1 req) !! "s2" = _storage one_task !! "s2"
  /\ same_answers (handle one_task t1 req) one_task "s2"
  /\ answer (handle one_task t1 req) t2 req2 = answer one_task t2 req2.
Proof.
  intros req req2.
  assert (H1 : "s1" <> "s2") by discriminate.
  assert (H2 : session_of req = "s1") by reflexivity.
  destruct (session_isolation one_task "s1" "s2" req t1 H1 H2)
    as (Ha & Hb & _ & _ & He).
  split; [exact H1|]. split; [exact H2|]. split; [exact Ha|].
  split; [exact Hb|]. apply (He t2 req2). reflexivity.
Defined.

(** ** Updates that change nothing *)

Section EmptyUpdate.
Context {R : Type} `{IRepository R}.

(** With an empty change set the service answers before it reaches its
    repository, whatever the repository is. *)
Lemma update_task_empty (self : R) session_id task_id updates now :
  TaskUpdate.dump_is_empty updates = true ->
  TaskService.update_task self session_id task_id updates now
  = (self, Raise (HTTPException 400 "No fields to update")).
Proof. intros E. unfold TaskService.update_task. rewrite E. reflexivity. Qed.

End EmptyUpdate.

Lemma dump_is_empty_unset (updates : TaskUpdate.t) :
  TaskUpdate.dump_is_empty updates = true <-> updates = TaskUpdate.unset.
Proof.
  split.
  - destruct updates as [[?|] [?|] [?|] [?|] [?|] [?|]]; cbn;
      intros E; try discriminate E; reflexivity.
  - intros ->. reflexivity.
Qed.

Lemma update_absent (repository : InMemoryTaskRepository)
  session_id task_id updates now :
  InMemory.find_by_id repository session_id task_id = None ->
  InMemory.update repository session_id task_id updates now = (repository, None).
Proof.
  unfold InMemory.find_by_id, InMemory.update.
  destruct (InMemory.first_with_id task_id
              (InMemory.find_all repository session_id)) as [[i t]|];
    cbn; [discriminate | reflexivity].
Qed.

(** C5. An update with an empty change set fails with status 400 and hands
    back the repository it was given, for every implementation [R] of the
    repository interface: no method of the repository takes part in the
    answer and nothing stored changes, time stamps included. An update
    with a change set that is not empty, for an id that the in-memory
    repository does not hold in the session, fails with status 404 (and
    changes nothing either). *)
Theorem update_task_empty_or_absent {R : Type} `{IRepository R} (self : R)
  (repository : InMemoryTaskRepository)
  (session_id task_id now : string) (no_change updates : TaskUpdate.t) :
  TaskUpdate.dump_is_empty no_change = true ->
  TaskUpdate.dump_is_empty updates = false ->
  InMemory.find_by_id repository session_id task_id = None ->
  TaskService.update_task self session_id task_id no_change now
  = (self, Raise (HTTPException 400 "No fields to update"))
  /\ TaskService.update_task repository session_id task_id updates now
     = (repository, Raise (HTTPException 404 "Task not found")).
Proof.
  intros He Hn Hf. split.
  - apply update_task_empty. exact He.
  - unfold TaskService.update_task. rewrite Hn.
    cbn [update InMemoryTaskRepository_IRepository].
    rewrite (update_absent repository session_id task_id updates now Hf).
    reflexivity.
Qed.

Lemma update_task_empty_or_absent_witness :
  TaskUpdate.dump_is_empty TaskUpdate.unset = true
  /\ TaskUpdate.dump_is_empty priority_1 = false
  /\ InMemory.find_by_id repository0 "s1" "id1" = None
  /\ TaskService.update_task one_task "s1" "id1" TaskUpdate.unset t1
     = (one_task, Raise (HTTPException 400 "No fields to update"))
  /\ TaskService.update_task repository0 "s1" "id1" priority_1 t1
     = (repository0, Raise (HTTPException 404 "Task not found")).
Proof.
  assert (H1 : TaskUpdate.dump_is_empty TaskUpdate.unset = true) by reflexivity.
  assert (H2 : TaskUpdate.dump_is_empty priority_1 = false) by reflexivity.
  assert (H3 : InMemory.find_by_id repository0 "s1" "id1" = None) by reflexivity.
  split; [exact H1|]. split; [exact H2|]. split; [exact H3|].
  exact (update_task_empty_or_absent one_task repository0 "s1" "id1" t1
           TaskUpdate.unset priority_1 H1 H2 H3).
Defined.

(** ** Create, then get *)

Section RoundTrip.

Implicit Types (r : InMemoryTaskRepository) (s : string) (d : TaskDict.t).

Lemma find_all_create r s d :
  InMemory.find_all (fst (InMemory.create r s d)) s
  = (InMemory.find_all r s ++ [d])%list.
Proof.
  unfold InMemory.create, InMemory.find_all at 1. cbn.
  rewrite lookup_insert_eq. reflexivity.
Qed.

(** When no task of the session has the id of [d] yet, the lookup of that
    id after [d] was appended finds [d]. *)
Lemma find_by_id_create_fresh r s d :
  InMemory.find_by_id r s (TaskDict.id d) = None ->
  InMemory.find_by_id (fst (InMemory.create r s d)) s (TaskDict.id d) = Some d.
Proof.
  unfold InMemory.find_by_id at 1. intros Hfresh.
  apply fmap_None in Hfresh.
  unfold InMemory.find_by_id. rewrite find_all_create.
  unfold InMemory.first_with_id in *.
  rewrite list_find_app_r by exact Hfresh.
  cbn. destruct (decide (TaskDict.id d = TaskDict.id d)) as [_|Hn];
    [reflexivity | contradiction Hn; reflexivity].
Qed.

End RoundTrip.

(** The lookup of an id misses exactly when no task of the partition has
    that id. *)
Lemma find_by_id_None (repository : InMemoryTaskRepository)
  (session_id task_id : string) :
  InMemory.find_by_id repository session_id task_id = None
  <-> Forall (fun t => TaskDict.id t <> task_id)
        (InMemory.find_all repository session_id).
Proof.
  unfold InMemory.find_by_id, InMemory.first_with_id.
  rewrite fmap_None. apply list_find_None.
Qed.

(** C8. Round trip: when the identifier drawn for a new task is the id of no
    task already in the partition of session [S] and [create_task] returns
    the task [T], a [get_task_by_id] of [T]'s id in the repository that
    [create_task] leaves behind returns [T] itself, every field and both
    time stamps included; and [T] carries the identifier drawn. *)
Theorem create_get_round_trip (repository : InMemoryTaskRepository)
  (S : string) (draft : TaskCreate.t) (uuid now : string) (T : Task.t) :
  Forall (fun t => TaskDict.id t <> uuid) (InMemory.find_all repository S) ->
  snd (TaskService.create_task repository S draft uuid now) = Ok T ->
  Task.id T = uuid
  /\ TaskService.get_task_by_id
       (fst (TaskService.create_task repository S draft uuid now)) S (Task.id T)
     = Ok T.
Proof.
  intros Hfresh Hcreated. apply find_by_id_None in Hfresh.
  unfold TaskService.create_task in *.
  cbn [create InMemoryTaskRepository_IRepository] in *.
  match type of Hcreated with
  | context [InMemory.create repository S ?d] => set (task_dict := d) in *
  end.
  pose proof (find_by_id_create_fresh repository S task_dict Hfresh) as Hfound.
  cbn [InMemory.create fst snd] in *.
  assert (Hid : Task.id T = uuid).
  { unfold Task.new in Hcreated.
    repeat match type of Hcreated with
    | context [mbind _ ?x] =>
        let E := fresh in destruct x eqn:E; cbn in Hcreated; try discriminate
    end.
    injection Hcreated as <-. reflexivity. }
  split; [exact Hid|].
  rewrite Hid. unfold TaskService.get_task_by_id.
  cbn [find_by_id InMemoryTaskRepository_IRepository].
  change uuid with (TaskDict.id task_dict).
  rewrite Hfound. exact Hcreated.
Qed.

Lemma create_get_round_trip_witness :
  let T := {| Task.id := "id2"; Task.title := "Fix Bug";
              Task.description := None; Task.priority := 2;
              Task.status := PENDING; Task.tags := [];
              Task.due_date := None; Task.created_at := t1;
              Task.updated_at := t1 |} in
  Forall (fun t => TaskDict.id t <> "id2") (InMemory.find_all one_task "s1")
  /\ snd (TaskService.create_task one_task "s1" fix_bug "id2" t1) = Ok T
  /\ TaskService.get_task_by_id
       (fst (TaskService.create_task one_task "s1" fix_bug "id2" t1))
       "s1" (Task.id T)
     = Ok T.
Proof.
  intros T.
  assert (H1 : Forall (fun t => TaskDict.id t <> "id2")
                 (InMemory.find_all one_task "s1")).
  { apply Forall_cons. split; [discriminate | apply Forall_nil_2]. }
  assert (H2 : snd (TaskService.create_task one_task "s1" fix_bug "id2" t1)
               = Ok T) by reflexivity.
  split; [exact H1|]. split; [exact H2|].
  destruct (create_get_round_trip one_task "s1" fix_bug "id2" t1 T H1 H2)
    as [_ Hget].
  exact Hget.
Defined.

(** ** Listing with a filter *)

Lemma filter_none {A} (p : A -> bool) (l : list A) :
  (forall a, In a l -> p a = false) -> List.filter p l = [].
Proof.
  induction l as [|a l IH]; intros Hp; [reflexivity|].
  cbn. rewrite (Hp a) by (left; reflexivity).
  apply IH. intros b Hb. apply Hp. right. exact Hb.
Qed.

(** A string that is the value of no member of the enumeration is the
    status of no stored task. *)
Lemma status_is_outside (v : string) (t : TaskDict.t) :
  TaskStatus_of_value v = None -> TaskDict.status_is v t = false.
Proof.
  unfold TaskStatus_of_value, TaskDict.status_is.
  destruct (String.eqb_spec v "PENDING") as [->|H1]; [discriminate|].
  destruct (String.eqb_spec v "IN_PROGRESS") as [->|H2]; [discriminate|].
  destruct (String.eqb_spec v "COMPLETED") as [->|H3]; [discriminate|].
  destruct (String.eqb_spec v "CANCELLED") as [->|H4]; [discriminate|].
  intros _. destruct (TaskDict.status t) as [[]|]; cbn [TaskStatus_value];
    try reflexivity; apply String.eqb_neq; congruence.
Qed.

(** C10, as it holds. Listing with a filter string that is not empty and
    that is the status of no task stored for the session (as is every
    string outside the enumeration, ["pending"] for one) succeeds with the
    empty list: the filter is compared, never validated, and no [Task] is
    built, so nothing can raise. *)
Theorem list_tasks_unmatched_filter (repository : InMemoryTaskRepository)
  (session_id status : string) :
  status <> "" ->
  (TaskStatus_of_value status = None
   \/ forall t, In t (InMemory.find_all repository session_id) ->
                TaskDict.status_is status t = false) ->
  Endpoint.list_tasks repository (Some status) session_id = Ok [].
Proof.
  intros Hne Hun.
  unfold Endpoint.list_tasks, TaskService.get_all_tasks.
  cbn [find_all InMemoryTaskRepository_IRepository].
  destruct status as [|c status]; [contradiction Hne; reflexivity|].
  cbn [Py.truthy]. rewrite filter_none; [reflexivity|].
  intros t Ht. destruct Hun as [Hout|Hno].
  - apply status_is_outside. exact Hout.
  - apply Hno. exact Ht.
Qed.

Lemma list_tasks_unmatched_filter_witness :
  "pending" <> ""
  /\ TaskStatus_of_value "pending" = None
  /\ Endpoint.list_tasks one_task (Some "pending") "s1" = Ok [].
Proof.
  assert (H1 : "pending" <> "") by discriminate.
  assert (H2 : TaskStatus_of_value "pending" = None) by reflexivity.
  split; [exact H1|]. split; [exact H2|].
  exact (list_tasks_unmatched_filter one_task "s1" "pending" H1 (or_introl H2)).
Defined.

(** C10, as stated, fails on the empty filter string: it is the status of
    no stored task and lies outside the enumeration, yet [if status] takes
    it for no filter at all and the whole partition is listed. *)
Lemma list_tasks_empty_filter_counterexample :
  TaskStatus_of_value "" = None
  /\ (forall t, In t (InMemory.find_all one_task "s1") ->
                TaskDict.status_is "" t = false)
  /\ Endpoint.list_tasks one_task (Some "") "s1"
     = Ok [ {| Task.id := "id1"; Task.title := "Plan release";
               Task.description := None; Task.priority := 3;
               Task.status := PENDING; Task.tags := [];
               Task.due_date := None; Task.created_at := t0;
               Task.updated_at := t0 |} ]
  /\ Endpoint.list_tasks one_task (Some "") "s1" <> Ok [].
Proof.
  split; [reflexivity|]. split.
  - intros t Ht. apply status_is_outside. reflexivity.
  - split; [reflexivity | discriminate].
Qed.

(** ** Trimming *)

Section Strip.

Implicit Types (s : string) (c : ascii).

Lemma lstrip_length s : (String.length (Py.lstrip s) <= String.length s)%nat.
Proof.
  induction s as [|c s IH]; cbn; [lia|].
  destruct (Py.isspace c); cbn; lia.
Qed.

Lemma rstrip_length s : (String.length (Py.rstrip s) <= String.length s)%nat.
Proof.
  induction s as [|c s IH]; cbn; [lia|].
  destruct (Py.rstrip s) as [|c' r]; [destruct (Py.isspace c)|]; cbn in *; lia.
Qed.

Lemma strip_length s : (String.length (Py.strip s) <= String.length s)%nat.
Proof.
  unfold Py.strip.
  pose proof (rstrip_length (Py.lstrip s)). pose proof (lstrip_length s). lia.
Qed.

Lemma lstrip_first s c :
  Py.first_char (Py.lstrip s) = Some c -> Py.isspace c = false.
Proof.
  induction s as [|a s IH]; cbn; [discriminate|].
  destruct (Py.isspace a) eqn:Ea; [exact IH|].
  cbn. intros [= <-]. exact Ea.
Qed.

Lemma rstrip_first s c :
  Py.first_char (Py.rstrip s) = Some c -> Py.first_char s = Some c.
Proof.
  destruct s as [|a s]; cbn; [discriminate|].
  destruct (Py.rstrip s) as [|c' r]; [destruct (Py.isspace a)|];
    cbn; congruence.
Qed.

Lemma rstrip_last s c :
  Py.last_char (Py.rstrip s) = Some c -> Py.isspace c = false.
Proof.
  induction s as [|a s IH]; cbn; [discriminate|].
  destruct (Py.rstrip s) as [|c' r] eqn:Er.
  - destruct (Py.isspace a) eqn:Ea; cbn; [discriminate|].
    intros [= <-]. exact Ea.
  - cbn [Py.last_char]. exact IH.
Qed.

(** A trimmed string starts and ends with characters that are not spaces. *)
Lemma strip_no_surrounding_space s : Py.no_surrounding_space (Py.strip s) = true.
Proof.
  unfold Py.no_surrounding_space, Py.strip.
  destruct (Py.first_char (Py.rstrip (Py.lstrip s))) as [a|] eqn:Ef;
    [|reflexivity].
  destruct (Py.last_char (Py.rstrip (Py.lstrip s))) as [b|] eqn:El;
    [|reflexivity].
  apply rstrip_first, lstrip_first in Ef. apply rstrip_last in El.
  rewrite Ef, El. reflexivity.
Qed.

Lemma rstrip_fixed s c :
  Py.last_char s = Some c -> Py.isspace c = false -> Py.rstrip s = s.
Proof.
  induction s as [|a s IH]; cbn; [discriminate|].
  destruct s as [|b s].
  - intros [= <-] ->. reflexivity.
  - intros Hl Hc. rewrite (IH Hl Hc). reflexivity.
Qed.

Lemma last_char_None s : Py.last_char s = None -> s = "".
Proof.
  induction s as [|a s IH]; [reflexivity|].
  cbn. destruct s as [|b s]; [discriminate|].
  intros Hl. discriminate (IH Hl).
Qed.

(** Trimming a string that carries no surrounding whitespace changes
    nothing. *)
Lemma strip_fixed s : Py.no_surrounding_space s = true -> Py.strip s = s.
Proof.
  unfold Py.no_surrounding_space, Py.strip.
  destruct s as [|a s]; [reflexivity|].
  cbn [Py.first_char].
  destruct (Py.last_char (String a s)) as [b|] eqn:El.
  - intros [Ha Hb]%andb_true_iff.
    apply negb_true_iff in Ha. apply negb_true_iff in Hb.
    cbn [Py.lstrip]. rewrite Ha. apply (rstrip_fixed _ b El Hb).
  - discriminate (last_char_None _ El).
Qed.

Lemma strip_idempotent s : Py.strip (Py.strip s) = Py.strip s.
Proof. apply strip_fixed, strip_no_surrounding_space. Qed.

End Strip.

(** ** Titles at the boundary *)

(** What the boundary guarantees of a title it accepts: the title kept is
    the trimmed one, it is not empty, it has at most 200 characters and no
    surrounding whitespace. (The lower bound of 3 was checked on the title
    as received, before trimming.) *)
Lemma title_accepted (v title : string) :
  TaskBase.title v = Ok title ->
  title = Py.strip v /\ 3 <= Py.len v <= 200
  /\ 1 <= Py.len title <= 200 /\ Py.no_surrounding_space title = true.
Proof.
  unfold TaskBase.title, TaskBase.title_not_empty.
  destruct (Py.len v <? 3) eqn:E3; [discriminate|].
  destruct (200 <? Py.len v) eqn:E200; [discriminate|].
  cbn [orb]. destruct (Py.truthy v); [|discriminate].
  destruct (Py.truthy (Py.strip v)) eqn:Et; [|discriminate].
  cbn. intros [= <-].
  apply Z.ltb_ge in E3. apply Z.ltb_ge in E200.
  pose proof (strip_length v) as Hl. unfold Py.len in *.
  split; [reflexivity|]. split; [lia|]. split.
  - destruct (Py.strip v); [discriminate Et|]. cbn [String.length] in *. lia.
  - apply strip_no_surrounding_space.
Qed.

Lemma update_title_accepted (v title : string) :
  TaskUpdate.validate_title (Some v) = Ok (Some title) ->
  title = Py.strip v /\ 3 <= Py.len v <= 200
  /\ 1 <= Py.len title <= 200 /\ Py.no_surrounding_space title = true.
Proof.
  intros Hu. apply title_accepted.
  unfold TaskUpdate.validate_title, TaskUpdate.title_not_empty_if_present in Hu.
  unfold TaskBase.title, TaskBase.title_not_empty.
  destruct ((Py.len v <? 3) || (200 <? Py.len v)); [discriminate|].
  destruct (Py.truthy v); [|discriminate].
  destruct (Py.truthy (Py.strip v)); [|discriminate].
  cbn in *. congruence.
Qed.

(** A title of at least 3 characters that the boundary produced passes the
    validation of [Task] unchanged. *)
Lemma title_revalidated (v title : string) :
  TaskBase.title v = Ok title -> 3 <= Py.len title ->
  TaskBase.title title = Ok title.
Proof.
  intros Hv H3. apply title_accepted in Hv as (-> & _ & [_ H200] & Hs).
  unfold TaskBase.title, TaskBase.title_not_empty.
  rewrite (strip_fixed _ Hs).
  destruct (Z.ltb_spec (Py.len (Py.strip v)) 3); [lia|].
  destruct (Z.ltb_spec 200 (Py.len (Py.strip v))); [lia|].
  cbn [orb]. unfold Py.len in *.
  destruct (Py.strip v); cbn in *; [lia | reflexivity].
Qed.

(** C3, at the input where the code departs from it. The body
    [{title: "  a  "}] passes the boundary, because the length bounds are
    checked on the five characters received and the validator trims
    afterwards; [create_task] stores the title ["a"], of length 1, and only
    then does [Task], which carries the same bounds, reject the stored
    dict. An update whose change set names the title takes the same way
    in. From then on listing the session raises as well. *)
Theorem padded_title_stored_short :
  let draft := TaskCreate.mk "a" None 2 (Some []) None in
  let created := TaskService.create_task repository0 "s1" draft "id1" t0 in
  TaskCreate.validate padded_title_body = Ok draft
  /\ TaskUpdate.validate_title (Some "  a  ") = Ok (Some "a")
  /\ List.map TaskDict.title (InMemory.find_all (fst created) "s1") = [Some "a"]
  /\ Py.len "a" = 1
  /\ snd created = Raise ValidationError
  /\ TaskService.get_all_tasks (fst created) "s1" None = Raise ValidationError.
Proof. cbv zeta. repeat split; reflexivity. Qed.

(** ** Creation *)

(** Where creation succeeds. For a draft whose title came through the
    boundary with at least 3 characters left, whose description and
    priority are within their bounds and whose tags are a list, the task
    returned has the fresh id, status [PENDING], both time stamps equal to
    the reading of the clock and the fields of the draft; it is the [Task]
    view of the dict appended to the partition of the session. *)
Lemma create_task_postcondition (repository : InMemoryTaskRepository)
  (session_id : string) (draft : TaskCreate.t) (raw_title uuid now : string)
  (tags : list string) :
  TaskBase.title raw_title = Ok (TaskCreate.title draft) ->
  3 <= Py.len (TaskCreate.title draft) ->
  TaskBase.description (TaskCreate.description draft)
  = Ok (TaskCreate.description draft) ->
  TaskBase.priority (TaskCreate.priority draft) = Ok (TaskCreate.priority draft) ->
  TaskCreate.tags draft = Some tags ->
  let task_dict :=
    {| TaskDict.id := uuid;
       TaskDict.title := Some (TaskCreate.title draft);
       TaskDict.description := TaskCreate.description draft;
       TaskDict.priority := Some (TaskCreate.priority draft);
       TaskDict.tags := Some tags;
       TaskDict.due_date := TaskCreate.due_date draft;
       TaskDict.status := Some PENDING;
       TaskDict.created_at := now;
       TaskDict.updated_at := now |} in
  let T :=
    {| Task.id := uuid;
       Task.title := TaskCreate.title draft;
       Task.description := TaskCreate.description draft;
       Task.priority := TaskCreate.priority draft;
       Task.status := PENDING;
       Task.tags := tags;
       Task.due_date := TaskCreate.due_date draft;
       Task.created_at := now;
       Task.updated_at := now |} in
  let created := TaskService.create_task repository session_id draft uuid now in
  snd created = Ok T
  /\ Task.new task_dict = Ok T
  /\ InMemory.find_all (fst created) session_id
     = (InMemory.find_all repository session_id ++ [task_dict])%list.
Proof.
  intros Ht H3 Hd Hp Hg task_dict T created.
  assert (Hnew : Task.new task_dict = Ok T).
  { unfold Task.new, task_dict. cbn.
    rewrite (title_revalidated raw_title _ Ht H3). cbn.
    rewrite Hd. cbn. rewrite Hp. cbn. reflexivity. }
  subst created. unfold TaskService.create_task.
  cbn [create InMemoryTaskRepository_IRepository].
  rewrite Hg. fold task_dict.
  cbn [InMemory.create fst snd].
  split; [exact Hnew|]. split; [exact Hnew|].
  apply (find_all_create repository session_id task_dict).
Qed.

(** C2, at an input where the code departs from it. The body
    [{title: "Plan release", tags: null}] passes the boundary as a draft
    whose tags are [None]; [create_task] appends the dict to the partition
    and then raises, because [Task] takes no [None] for its tags: no task
    is returned although one was stored. *)
Theorem create_task_null_tags :
  let draft := TaskCreate.mk "Plan release" None 2 None None in
  let created := TaskService.create_task repository0 "s1" draft "id1" t0 in
  TaskCreate.validate null_tags_body = Ok draft
  /\ snd created = Raise ValidationError
  /\ InMemory.find_all (fst created) "s1"
     = [ {| TaskDict.id := "id1"; TaskDict.title := Some "Plan release";
            TaskDict.description := None; TaskDict.priority := Some 2;
            TaskDict.tags := None; TaskDict.due_date := None;
            TaskDict.status := Some PENDING;
            TaskDict.created_at := t0; TaskDict.updated_at := t0 |} ].
Proof. cbv zeta. repeat split; reflexivity. Qed.

(** ** Partial updates *)

Section Update.

Implicit Types (r : InMemoryTaskRepository) (s : string) (t : TaskDict.t).

Lemma find_all_insert (m : gmap string (list TaskDict.t)) s (l : list TaskDict.t) :
  InMemory.find_all (Repo (<[s:=l]> m)) s = l.
Proof. unfold InMemory.find_all. cbn. rewrite lookup_insert_eq. reflexivity. Qed.

Lemma In_insert {A} (l : list A) (i : nat) (x y : A) :
  In y (<[i:=x]> l) -> y = x \/ In y l.
Proof.
  revert i. induction l as [|a l IH]; intros [|i]; cbn; try tauto.
  - intros [<-|H]; auto.
  - intros [<-|H]; [auto|]. destruct (IH i H); auto.
Qed.

Lemma In_list_remove {A} `{EqDecision A} (l : list A) (x y : A) :
  In y (list_remove x l) -> In y l.
Proof.
  induction l as [|a l IH]; cbn; [tauto|].
  destruct (decide (a = x)); cbn; [auto|].
  intros [<-|H]; auto.
Qed.

(** The update of a task that is found rewrites the dict at the position
    where it was found, and the lookup of the id finds the rewritten dict
    there afterwards. *)
Lemma update_found r s task_id updates now i t :
  InMemory.first_with_id task_id (InMemory.find_all r s) = Some (i, t) ->
  let t' := TaskDict.set_updated_at (TaskDict.update t updates) now in
  InMemory.update r s task_id updates now
  = (Repo (<[s := <[i := t']> (InMemory.find_all r s)]> (_storage r)), Some t')
  /\ InMemory.first_with_id task_id
       (InMemory.find_all (fst (InMemory.update r s task_id updates now)) s)
     = Some (i, t').
Proof.
  intros Hfound t'. unfold InMemory.update. rewrite Hfound. fold t'.
  split; [reflexivity|]. cbn [fst]. rewrite find_all_insert.
  unfold InMemory.first_with_id in *.
  apply list_find_Some in Hfound as (Hi & Hid & Hfirst).
  apply list_find_insert_Some. right. left.
  split; [reflexivity|]. split; [reflexivity|].
  split; [apply (lookup_lt_Some _ _ _ Hi)|].
  split; [exact Hid|]. exact Hfirst.
Qed.

(** Serving a request at a reading that is not later than [now] keeps every
    stored [updated_at] not later than [now]. *)
Lemma handle_stamped now r served req :
  String.leb served now = true ->
  stamped_up_to now r -> stamped_up_to now (handle r served req).
Proof.
  intros Hle Hinv s t Hin.
  destruct (decide (session_of req = s)) as [<-|Hne].
  - destruct req as [x d u|x i u|x i|x]; cbn [handle session_of] in *.
    + unfold TaskService.create_task in Hin.
      cbn [create InMemoryTaskRepository_IRepository InMemory.create fst] in Hin.
      rewrite find_all_insert in Hin.
      apply in_app_or in Hin as [Hold|[<-|[]]]; [apply (Hinv x t Hold)|].
      exact Hle.
    + unfold TaskService.update_task in Hin.
      destruct (TaskUpdate.dump_is_empty u); [apply (Hinv x t Hin)|].
      cbn [update InMemoryTaskRepository_IRepository] in Hin.
      unfold InMemory.update in Hin.
      destruct (InMemory.first_with_id i (InMemory.find_all r x))
        as [[k old]|]; cbn [fst] in Hin; [|apply (Hinv x t Hin)].
      rewrite find_all_insert in Hin.
      apply In_insert in Hin as [->|Hold]; [exact Hle | apply (Hinv x t Hold)].
    + unfold TaskService.delete_task in Hin.
      cbn [delete InMemoryTaskRepository_IRepository] in Hin.
      unfold InMemory.delete in Hin.
      destruct (InMemory.find_by_id r x i) as [old|];
        cbn [fst] in Hin; [|apply (Hinv x t Hin)].
      rewrite find_all_insert in Hin.
      apply In_list_remove in Hin. apply (Hinv x t Hin).
    + unfold Endpoint.delete_all_tasks in Hin.
      destruct (_storage r !! x) eqn:Ex; [|apply (Hinv x t Hin)].
      rewrite find_all_insert in Hin. destruct Hin.
  - rewrite (find_all_partition (handle r served req) r s) in Hin.
    + apply (Hinv s t Hin).
    + apply (handle_writes_own r served req (session_of req) s Hne eq_refl).
Qed.

Lemma serve_stamped now history :
  clock_not_after now history = true ->
  forall r, stamped_up_to now r -> stamped_up_to now (serve r history).
Proof.
  induction history as [|[served req] history IH]; intros Hclock r Hinv;
    [exact Hinv|].
  cbn in Hclock. apply andb_true_iff in Hclock as [Hle Hrest].
  cbn [serve]. apply (IH Hrest). apply handle_stamped; assumption.
Qed.

Lemma repository0_stamped now : stamped_up_to now repository0.
Proof. intros s t []. Qed.

Lemma first_with_id_In task_id (l : list TaskDict.t) i t :
  InMemory.first_with_id task_id l = Some (i, t) -> In t l.
Proof.
  intros (Hi & _)%list_find_Some.
  apply list_elem_of_In. apply (list_elem_of_lookup_2 _ _ _ Hi).
Qed.

End Update.

(** The first task of a partition with a given id, told by the ids
    themselves: it stands at position [i], has the id, and no task before
    it has. *)
Lemma first_with_id_at (task_id : string) (l : list TaskDict.t) (i : nat)
  (t : TaskDict.t) :
  l !! i = Some t ->
  TaskDict.id t = task_id ->
  Forall (fun x => TaskDict.id x <> task_id) (take i l) ->
  InMemory.first_with_id task_id l = Some (i, t).
Proof.
  intros Hi Hid Hbefore. unfold InMemory.first_with_id.
  apply list_find_Some. split; [exact Hi|]. split; [exact Hid|].
  intros j y Hj Hlt.
  apply (Forall_lookup_1 _ _ j y Hbefore).
  rewrite lookup_take_lt by exact Hlt. exact Hj.
Qed.

(** C4, as it holds. Frame of a partial update. Let [task] be the first task
    of the partition of [session_id] whose id is [task_id] (it stands at
    position [i] and no task before it has that id), and let the change set
    be not empty. After [update_task], whatever it answers, the partition
    is the one before with the dict at position [i] replaced, every other
    task being as it was, and the lookup of the id finds the new dict. The
    new dict has the same [id] and [created_at]; its [updated_at] is the
    clock reading [now]; each of the six other fields is as before when the
    change set does not name it and at the supplied value, [None] included,
    when it does. A change set has no entry for [id] or [created_at]:
    [TaskUpdate] has no such fields. The new [updated_at] is not earlier
    than the previous one whenever the repository was reached from the
    start of the process by requests none of which was served at a clock
    reading later than [now]. *)
Theorem update_task_frame (repository : InMemoryTaskRepository)
  (session_id task_id now : string) (updates : TaskUpdate.t)
  (i : nat) (task : TaskDict.t) :
  TaskUpdate.dump_is_empty updates = false ->
  InMemory.find_all repository session_id !! i = Some task ->
  TaskDict.id task = task_id ->
  Forall (fun t => TaskDict.id t <> task_id)
    (take i (InMemory.find_all repository session_id)) ->
  exists task' : TaskDict.t,
    InMemory.find_all
      (fst (TaskService.update_task repository session_id task_id updates now))
      session_id
    = <[i := task']> (InMemory.find_all repository session_id)
    /\ InMemory.find_by_id
         (fst (TaskService.update_task repository session_id task_id
                 updates now))
         session_id task_id
       = Some task'
    /\ TaskDict.id task' = TaskDict.id task
    /\ TaskDict.created_at task' = TaskDict.created_at task
    /\ TaskDict.updated_at task' = now
    /\ changed_as (TaskUpdate.title updates)
         (TaskDict.title task) (TaskDict.title task')
    /\ changed_as (TaskUpdate.description updates)
         (TaskDict.description task) (TaskDict.description task')
    /\ changed_as (TaskUpdate.status updates)
         (TaskDict.status task) (TaskDict.status task')
    /\ changed_as (TaskUpdate.priority updates)
         (TaskDict.priority task) (TaskDict.priority task')
    /\ changed_as (TaskUpdate.tags updates)
         (TaskDict.tags task) (TaskDict.tags task')
    /\ changed_as (TaskUpdate.due_date updates)
         (TaskDict.due_date task) (TaskDict.due_date task')
    /\ (forall history : list (string * request),
          repository = serve repository0 history ->
          clock_not_after now history = true ->
          String.leb (TaskDict.updated_at task) now = true).
Proof.
  intros Hne Hi Hid Hbefore.
  pose proof (first_with_id_at task_id _ i task Hi Hid Hbefore) as Hfirst.
  destruct (update_found repository session_id task_id updates now i task Hfirst)
    as [Hupd Hafter].
  exists (TaskDict.set_updated_at (TaskDict.update task updates) now).
  assert (Hfst : fst (TaskService.update_task repository session_id task_id
                        updates now)
                 = fst (InMemory.update repository session_id task_id
                          updates now)).
  { unfold TaskService.update_task. rewrite Hne.
    cbn [update InMemoryTaskRepository_IRepository].
    destruct (InMemory.update repository session_id task_id updates now)
      as [r' [u|]]; reflexivity. }
  rewrite Hfst. split.
  - rewrite Hupd. cbn [fst]. apply find_all_insert.
  - split.
    + unfold InMemory.find_by_id. rewrite Hafter. reflexivity.
    + split; [reflexivity|]. split; [reflexivity|]. split; [reflexivity|].
      assert (Hfields :
        changed_as (TaskUpdate.title updates) (TaskDict.title task)
          (default (TaskDict.title task) (TaskUpdate.title updates))
        /\ changed_as (TaskUpdate.description updates)
             (TaskDict.description task)
             (default (TaskDict.description task)
                (TaskUpdate.description updates))
        /\ changed_as (TaskUpdate.status updates) (TaskDict.status task)
             (default (TaskDict.status task) (TaskUpdate.status updates))
        /\ changed_as (TaskUpdate.priority updates) (TaskDict.priority task)
             (default (TaskDict.priority task) (TaskUpdate.priority updates))
        /\ changed_as (TaskUpdate.tags updates) (TaskDict.tags task)
             (default (TaskDict.tags task) (TaskUpdate.tags updates))
        /\ changed_as (TaskUpdate.due_date updates) (TaskDict.due_date task)
             (default (TaskDict.due_date task) (TaskUpdate.due_date updates))).
      { unfold changed_as.
        destruct updates as [[?|] [?|] [?|] [?|] [?|] [?|]]; cbn;
          repeat split; reflexivity. }
      destruct Hfields as (H1 & H2 & H3 & H4 & H5 & H6).
      repeat (split; [assumption|]).
      intros history -> Hclock.
      apply (serve_stamped now history Hclock repository0
               (repository0_stamped now) session_id task).
      apply (first_with_id_In task_id _ i task Hfirst).
Qed.

Lemma update_task_frame_witness :
  let repository := serve repository0 two_tasks in
  let task :=
    {| TaskDict.id := "id2"; TaskDict.title := Some "Other";
       TaskDict.description := None; TaskDict.priority := Some 2;
       TaskDict.tags := Some []; TaskDict.due_date := None;
       TaskDict.status := Some PENDING;
       TaskDict.created_at := t1; TaskDict.updated_at := t1 |} in
  let task' :=
    {| TaskDict.id := "id2"; TaskDict.title := Some "Other";
       TaskDict.description := None; TaskDict.priority := Some 1;
       TaskDict.tags := Some []; TaskDict.due_date := None;
       TaskDict.status := Some PENDING;
       TaskDict.created_at := t1; TaskDict.updated_at := t2 |} in
  TaskUpdate.dump_is_empty priority_1 = false
  /\ InMemory.find_all repository "s1" !! 1%nat = Some task
  /\ TaskDict.id task = "id2"
  /\ Forall (fun t => TaskDict.id t <> "id2")
       (take 1 (InMemory.find_all repository "s1"))
  /\ InMemory.find_all
       (fst (TaskService.update_task repository "s1" "id2" priority_1 t2)) "s1"
     = <[1%nat := task']> (InMemory.find_all repository "s1")
  /\ String.leb (TaskDict.updated_at task) t2 = true.
Proof.
  intros repository task task'.
  assert (H1 : TaskUpdate.dump_is_empty priority_1 = false) by reflexivity.
  assert (H2 : InMemory.find_all repository "s1" !! 1%nat = Some task)
    by reflexivity.
  assert (H3 : TaskDict.id task = "id2") by reflexivity.
  assert (H4 : Forall (fun t => TaskDict.id t <> "id2")
                 (take 1 (InMemory.find_all repository "s1"))).
  { apply Forall_cons. split; [discriminate | apply Forall_nil_2]. }
  split; [exact H1|]. split; [exact H2|]. split; [exact H3|].
  split; [exact H4|].
  destruct (update_task_frame repository "s1" "id2" t2 priority_1 1%nat task
              H1 H2 H3 H4)
    as (u & Hall & Hf & _ & _ & _ & _ & _ & _ & _ & _ & _ & Hclock).
  split.
  - rewrite Hall. f_equal.
    assert (Hu : InMemory.find_by_id
                   (fst (TaskService.update_task repository "s1" "id2"
                           priority_1 t2)) "s1" "id2" = Some task')
      by reflexivity.
    congruence.
  - apply (Hclock two_tasks); reflexivity.
Defined.

(** C4, as stated, fails where the clock steps back: [update] stamps the
    reading of the wall clock and nothing keeps that reading from being
    earlier than the stamp the task already carries. A task is created at
    reading [t1]; an update served at the earlier reading [t0] rewrites its
    [updated_at] to [t0], which is earlier than the previous [t1]. *)
Lemma update_task_clock_back_counterexample :
  let repository := serve repository0 [(t1, POST_tasks "s1" plan_release "id1")] in
  let after :=
    fst (TaskService.update_task repository "s1" "id1" priority_1 t0) in
  TaskUpdate.dump_is_empty priority_1 = false
  /\ List.map TaskDict.updated_at (InMemory.find_all repository "s1") = [t1]
  /\ List.map TaskDict.updated_at (InMemory.find_all after "s1") = [t0]
  /\ String.leb t1 t0 = false.
Proof. cbv zeta. repeat split; reflexivity. Qed.

(** ** Statistics *)

Lemma sum_ones_count {A} (p : A -> bool) (l : list A) :
  sum_ones p l = count p l.
Proof.
  unfold count. induction l as [|a l IH]; [reflexivity|].
  cbn [sum_ones List.filter]. rewrite IH.
  destruct (p a); cbn [length]; lia.
Qed.

Lemma status_is_value (S : TaskStatus) (t : TaskDict.t) :
  TaskDict.status_is (TaskStatus_value S) t = has_status (Some S) t.
Proof.
  unfold TaskDict.status_is, has_status.
  destruct (TaskDict.status t) as [S'|].
  - destruct S, S'; reflexivity.
  - reflexivity.
Qed.

Lemma count_cons {A} (p : A -> bool) (a : A) (l : list A) :
  count p (a :: l) = (if p a then 1 else 0) + count p l.
Proof. unfold count. cbn [List.filter]. destruct (p a); cbn [length]; lia. Qed.

Lemma count_ext {A} (p q : A -> bool) (l : list A) :
  (forall a, p a = q a) -> count p l = count q l.
Proof.
  intros E. unfold count. induction l as [|a l IH]; [reflexivity|].
  cbn [List.filter]. rewrite E.
  destruct (q a); cbn [length]; lia.
Qed.

(** What the statistics count, in every repository: [total] is the length
    of the partition, each bucket is the number of tasks whose stored
    status is exactly that member, and the four buckets together with the
    tasks whose status is [None] make up [total]. The partition of a session
    never seen is empty and all five fields are 0. *)
Lemma statistics_tally (repository : InMemoryTaskRepository) (session_id : string) :
  let tasks := InMemory.find_all repository session_id in
  let stats := TaskService.get_statistics repository session_id in
  TaskStats.total stats = Z.of_nat (length tasks)
  /\ TaskStats.pending stats = count (has_status (Some PENDING)) tasks
  /\ TaskStats.in_progress stats = count (has_status (Some IN_PROGRESS)) tasks
  /\ TaskStats.completed stats = count (has_status (Some COMPLETED)) tasks
  /\ TaskStats.cancelled stats = count (has_status (Some CANCELLED)) tasks
  /\ TaskStats.pending stats + TaskStats.in_progress stats
     + TaskStats.completed stats + TaskStats.cancelled stats
     + count (has_status None) tasks
     = TaskStats.total stats.
Proof.
  intros tasks stats. subst stats. unfold TaskService.get_statistics.
  cbn [find_all InMemoryTaskRepository_IRepository TaskStats.total
       TaskStats.pending TaskStats.in_progress TaskStats.completed
       TaskStats.cancelled].
  fold tasks. rewrite !sum_ones_count.
  rewrite (count_ext _ _ tasks (status_is_value PENDING)).
  rewrite (count_ext _ _ tasks (status_is_value IN_PROGRESS)).
  rewrite (count_ext _ _ tasks (status_is_value COMPLETED)).
  rewrite (count_ext _ _ tasks (status_is_value CANCELLED)).
  repeat (split; [reflexivity|]).
  induction tasks as [|t tasks IH]; [reflexivity|].
  rewrite !count_cons. cbn [length].
  pose proof (fun o => eq_refl
                : has_status o t = bool_decide (TaskDict.status t = o)) as Hh.
  rewrite !Hh.
  destruct (TaskDict.status t) as [[]|];
    repeat case_bool_decide; try congruence; lia.
Qed.

Lemma statistics_unseen_session (session_id : string) :
  TaskService.get_statistics repository0 session_id
  = {| TaskStats.total := 0; TaskStats.pending := 0;
       TaskStats.in_progress := 0; TaskStats.completed := 0;
       TaskStats.cancelled := 0 |}.
Proof. reflexivity. Qed.

(** C6, at the input where the code departs from it. The body
    [{status: null}] passes the boundary; the update stores [None] as the
    status of the task before [Task] rejects the dict. The statistics of
    the session then count one task in [total] and none in any bucket, so
    the buckets no longer sum to [total]. *)
Theorem statistics_after_null_status :
  let repository := serve repository0 status_nulled in
  let stats := TaskService.get_statistics repository "s1" in
  TaskUpdate.validate null_status_body = Ok null_status
  /\ snd (TaskService.update_task one_task "s1" "id1" null_status t1)
     = Raise ValidationError
  /\ List.map TaskDict.status (InMemory.find_all repository "s1") = [None]
  /\ stats = {| TaskStats.total := 1; TaskStats.pending := 0;
                TaskStats.in_progress := 0; TaskStats.completed := 0;
                TaskStats.cancelled := 0 |}
  /\ TaskStats.pending stats + TaskStats.in_progress stats
     + TaskStats.completed stats + TaskStats.cancelled stats
     <> TaskStats.total stats.
Proof. cbv zeta. repeat split; try reflexivity. discriminate. Qed.

(** ** Search *)

Section Search.

Implicit Types (hay needle : string).

Lemma append_cons (c : ascii) (a b : string) :
  String c a ++ b = String c (a ++ b).
Proof. reflexivity. Qed.

Lemma prefix_app needle hay :
  String.prefix needle hay = true <-> exists post, hay = needle ++ post.
Proof.
  revert hay. induction needle as [|a needle IH]; intros hay.
  - split; [intros _; exists hay; reflexivity | destruct hay; reflexivity].
  - destruct hay as [|b hay]; cbn [String.prefix].
    + split; [discriminate|].
      intros [post Hp]. rewrite append_cons in Hp. discriminate Hp.
    + destruct (ascii_dec a b) as [<-|Hab].
      * rewrite IH. split; intros [post Hp]; exists post.
        -- rewrite append_cons, Hp. reflexivity.
        -- rewrite append_cons in Hp. congruence.
      * split; [discriminate|].
        intros [post Hp]. rewrite append_cons in Hp. congruence.
Qed.

(** [needle in hay] holds exactly when [needle] occurs in [hay]. *)
Lemma contains_occurs hay needle :
  Py.contains hay needle = true
  <-> exists pre post, hay = pre ++ needle ++ post.
Proof.
  induction hay as [|c hay IH]; cbn [Py.contains].
  - rewrite orb_false_r, prefix_app. split.
    + intros [post Hp]. exists "", post. exact Hp.
    + intros (pre & post & Hp). destruct pre as [|c' pre].
      * exists post. exact Hp.
      * rewrite append_cons in Hp. discriminate Hp.
  - rewrite orb_true_iff, prefix_app, IH. split.
    + intros [[post Hp]|(pre & post & Hp)].
      * exists "", post. exact Hp.
      * exists (String c pre), post. rewrite append_cons, Hp. reflexivity.
    + intros (pre & post & Hp). destruct pre as [|c' pre].
      * left. exists post. exact Hp.
      * right. exists pre, post. rewrite append_cons in Hp. congruence.
Qed.

Lemma contains_empty_hay needle : needle <> "" -> Py.contains "" needle = false.
Proof. destruct needle; [congruence | reflexivity]. Qed.

Lemma lower_nonempty s : s <> "" -> Py.lower s <> "".
Proof. destruct s; [congruence | discriminate]. Qed.

(** On a task that has a title, the condition evaluated by [search_tasks]
    for a query that is not empty is the stated predicate. *)
Lemma search_condition_matches `{IRepository R} (query : string) (t : TaskDict.t) :
  query <> "" -> TaskDict.title t <> None ->
  TaskService.search_condition (Py.lower query) t = Ok (matches query t).
Proof.
  intros Hq Ht. unfold TaskService.search_condition, matches.
  destruct (TaskDict.title t) as [title|]; [|congruence].
  destruct (Py.contains (Py.lower title) (Py.lower query)); [reflexivity|].
  cbn [orb]. destruct (TaskDict.description t) as [[|c d]|]; try reflexivity.
  cbn [Py.truthy Py.lower].
  rewrite (contains_empty_hay _ (lower_nonempty _ Hq)). reflexivity.
Qed.

Lemma comprehension_if_filter {A} (p : A -> result bool) (q : A -> bool)
  (l : list A) :
  (forall a, In a l -> p a = Ok (q a)) ->
  comprehension_if p l = Ok (List.filter q l).
Proof.
  induction l as [|a l IH]; intros Hp; [reflexivity|].
  cbn [comprehension_if List.filter].
  rewrite (Hp a) by (left; reflexivity).
  rewrite IH by (intros b Hb; apply Hp; right; exact Hb).
  reflexivity.
Qed.

(** Where search does what is stated. In a partition all of whose tasks have
    a title, a query of at least 2 characters selects exactly the tasks
    that satisfy the stated predicate, in the order of the partition, and
    the answer is the list of their [Task] views. *)
Lemma search_tasks_titled (repository : InMemoryTaskRepository)
  (q session_id : string) :
  2 <= Py.len q ->
  (forall t, In t (InMemory.find_all repository session_id) ->
             TaskDict.title t <> None) ->
  Endpoint.search_tasks repository q session_id
  = comprehension Task.new
      (List.filter (matches q) (InMemory.find_all repository session_id)).
Proof.
  intros Hlen Htitled. unfold Endpoint.search_tasks.
  destruct (Z.ltb_spec (Py.len q) 2); [lia|].
  unfold TaskService.search_tasks.
  cbn [find_all InMemoryTaskRepository_IRepository].
  rewrite (comprehension_if_filter _ (matches q)); [reflexivity|].
  intros t Ht. apply search_condition_matches; [|apply Htitled; exact Ht].
  intros ->. unfold Py.len in Hlen. cbn [String.length] in Hlen. lia.
Qed.

(** A query of fewer than 2 characters is turned down before the
    repository is looked at. *)
Lemma search_tasks_short_query (repository : InMemoryTaskRepository)
  (q session_id : string) :
  Py.len q < 2 ->
  Endpoint.search_tasks repository q session_id
  = Raise (HTTPException 400 "Query must be at least 2 characters").
Proof.
  intros Hlen. unfold Endpoint.search_tasks.
  destruct (Z.ltb_spec (Py.len q) 2); [reflexivity | lia].
Qed.

End Search.

(** C7, at inputs where the code departs from it. After the body
    [{title: null}] of an update passed the boundary and [None] was stored
    as the title of the task, a search of the session with the query
    ["bu"], which found the task before, raises [AttributeError] instead of
    returning the matching tasks. After the body [{title: "  ab "}] of a
    creation stored the title ["ab"], a search for ["ab"] selects that task
    and raises when [Task] rejects it. *)
Theorem search_after_null_title :
  let before := serve repository0 [(t0, POST_tasks "s1" fix_bug "id1")] in
  let after := serve repository0 title_nulled in
  let short := serve repository0 [(t0, POST_tasks "s1" short_ab "id1")] in
  TaskUpdate.validate null_title_body = Ok null_title
  /\ Endpoint.search_tasks before "bu" "s1"
     = Ok [ {| Task.id := "id1"; Task.title := "Fix Bug";
               Task.description := None; Task.priority := 2;
               Task.status := PENDING; Task.tags := [];
               Task.due_date := None; Task.created_at := t0;
               Task.updated_at := t0 |} ]
  /\ List.map TaskDict.title (InMemory.find_all after "s1") = [None]
  /\ Endpoint.search_tasks after "bu" "s1" = Raise AttributeError
  /\ TaskCreate.validate padded_ab_body = Ok short_ab
  /\ List.map TaskDict.title (InMemory.find_all short "s1") = [Some "ab"]
  /\ Endpoint.search_tasks short "ab" "s1" = Raise ValidationError.
Proof. cbv zeta. repeat split; reflexivity. Qed.

(** ** The model on small scenarios *)

Example create_plan_release :
  snd (TaskService.create_task repository0 "s1" plan_release "id1" t0)
  = Ok {| Task.id := "id1"; Task.title := "Plan release";
          Task.description := None; Task.priority := 3;
          Task.status := PENDING; Task.tags := [];
          Task.due_date := None; Task.created_at := t0;
          Task.updated_at := t0 |}.
Proof. reflexivity. Qed.

Example statistics_three_tasks :
  TaskService.get_statistics (serve repository0 three_tasks) "s1"
  = {| TaskStats.total := 3; TaskStats.pending := 1;
       TaskStats.in_progress := 1; TaskStats.completed := 1;
       TaskStats.cancelled := 0 |}.
Proof. reflexivity. Qed.

Example update_priority_keeps_title :
  snd (TaskService.update_task one_task "s1" "id1" TaskUpdate.unset t1)
  = Raise (HTTPException 400 "No fields to update")
  /\ snd (TaskService.update_task one_task "s1" "id1" priority_1 t1)
     = Ok {| Task.id := "id1"; Task.title := "Plan release";
             Task.description := None; Task.priority := 1;
             Task.status := PENDING; Task.tags := [];
             Task.due_date := None; Task.created_at := t0;
             Task.updated_at := t1 |}.
Proof. split; reflexivity. Qed.

Example search_bu :
  Endpoint.search_tasks (serve repository0 two_tasks) "bu" "s1"
  = Ok [ {| Task.id := "id1"; Task.title := "Fix Bug";
            Task.description := None; Task.priority := 2;
            Task.status := PENDING; Task.tags := [];
            Task.due_date := None; Task.created_at := t0;
            Task.updated_at := t0 |} ].
Proof. reflexivity. Qed.

Example delete_twice :
  let first := TaskService.delete_task one_task "s1" "id1" in
  snd first = Ok tt
  /\ snd (TaskService.delete_task (fst first) "s1" "id1")
     = Raise (HTTPException 404 "Task not found").
Proof. split; reflexivity. Qed.

Example trimmed_title :
  TaskBase.title "  Trimmed  " = Ok "Trimmed"
  /\ TaskBase.title "AB" = Raise ValidationError
  /\ TaskBase.title "   " = Raise ValidationError.
Proof. repeat split; reflexivity. Qed.

(** * Further properties of the code *)

(** ** What the pydantic models let through *)

(** X1. A title that [TaskBase] (on creation) or [TaskUpdate] (on update)
    accepts is kept as the trimmed input: it is not empty, has no
    surrounding whitespace and at most 200 characters, and the input itself
    had 3 to 200 characters. *)
Theorem boundary_title_accepted (v title : string) :
  TaskBase.title v = Ok title
  \/ TaskUpdate.validate_title (Some v) = Ok (Some title) ->
  title = Py.strip v
  /\ 3 <= Py.len v <= 200
  /\ 1 <= Py.len title <= 200
  /\ Py.no_surrounding_space title = true.
Proof.
  intros [Hc|Hu]; [apply title_accepted | apply update_title_accepted];
    assumption.
Qed.

Lemma boundary_title_accepted_witness :
  (TaskBase.title "  Trimmed  " = Ok "Trimmed"
   \/ TaskUpdate.validate_title (Some "  Trimmed  ") = Ok (Some "Trimmed"))
  /\ "Trimmed" = Py.strip "  Trimmed  "
  /\ 1 <= Py.len "Trimmed" <= 200.
Proof.
  assert (H : TaskBase.title "  Trimmed  " = Ok "Trimmed"
              \/ TaskUpdate.validate_title (Some "  Trimmed  ")
                 = Ok (Some "Trimmed")) by (left; reflexivity).
  split; [exact H|].
  destruct (boundary_title_accepted "  Trimmed  " "Trimmed" H)
    as (Hs & _ & Hl & _).
  split; assumption.
Defined.

(** X2. A title made of whitespace only is rejected on creation and on
    update, whatever its length, and so is a title of more than 200
    characters. *)
Theorem boundary_title_rejected (v : string) :
  Py.strip v = "" \/ 200 < Py.len v ->
  TaskBase.title v = Raise ValidationError
  /\ TaskUpdate.validate_title (Some v) = Raise ValidationError.
Proof.
  intros Hbad.
  unfold TaskBase.title, TaskBase.title_not_empty,
    TaskUpdate.validate_title, TaskUpdate.title_not_empty_if_present.
  destruct (Py.len v <? 3); [split; reflexivity|].
  destruct (Z.ltb_spec 200 (Py.len v)); [split; reflexivity|].
  destruct Hbad as [Hblank|Hlong]; [|lia].
  rewrite Hblank. cbn [orb Py.truthy negb].
  rewrite orb_true_r. split; reflexivity.
Qed.

Lemma boundary_title_rejected_witness :
  (Py.strip "      " = "" \/ 200 < Py.len "      ")
  /\ TaskBase.title "      " = Raise ValidationError
  /\ TaskUpdate.validate_title (Some "      ") = Raise ValidationError.
Proof.
  assert (H : Py.strip "      " = "" \/ 200 < Py.len "      ")
    by (left; reflexivity).
  split; [exact H|]. exact (boundary_title_rejected "      " H).
Defined.

Lemma TaskCreate_validate_fields (b : TaskCreate.body) (d : TaskCreate.t) :
  TaskCreate.validate b = Ok d ->
  (exists raw, TaskCreate.b_title b = Some raw
               /\ TaskBase.title raw = Ok (TaskCreate.title d))
  /\ 1 <= TaskCreate.priority d <= 4
  /\ (TaskCreate.b_priority b = None -> TaskCreate.priority d = 2)
  /\ TaskCreate.description d = TaskCreate.b_description b
  /\ (forall text, TaskCreate.description d = Some text -> Py.len text <= 1000)
  /\ (TaskCreate.b_tags b = None -> TaskCreate.tags d = Some [])
  /\ (TaskCreate.b_tags b = Some None -> TaskCreate.tags d = None)
  /\ TaskCreate.due_date d = TaskCreate.b_due_date b.
Proof.
  destruct b as [bt bd bp bg bdue]. unfold TaskCreate.validate.
  cbn [TaskCreate.b_title TaskCreate.b_description TaskCreate.b_priority
       TaskCreate.b_tags TaskCreate.b_due_date].
  destruct bt as [raw|]; [|discriminate].
  destruct (TaskBase.title raw) as [ti|e] eqn:Et; [|discriminate].
  cbn [mbind result_bind]. unfold TaskBase.description, TaskBase.priority.
  destruct bd as [text|];
    [destruct (Z.ltb_spec 1000 (Py.len text)); [discriminate|]|];
    (destruct bp as [p|];
     [destruct (Z.ltb_spec p 1); [discriminate|];
      destruct (Z.ltb_spec 4 p); [discriminate|]|]);
    cbn; intros [= <-]; cbn;
    repeat split; try lia; try discriminate;
    try (intros ->; reflexivity);
    try (exists raw; split; [reflexivity | exact Et]);
    try (intros ? [= <-]; lia).
Qed.

(** X3. What [TaskCreate] guarantees of a body it accepts: the body had a
    title and the draft carries what [TaskBase] made of it; the priority
    lies in 1..4 and is 2 when the body had none; a description has at most
    1000 characters; the tags are the empty list when the body had none,
    and [None] when the body said [null]; the due date is taken as it is. *)
Theorem boundary_create (b : TaskCreate.body) (d : TaskCreate.t) :
  TaskCreate.validate b = Ok d ->
  (exists raw, TaskCreate.b_title b = Some raw
               /\ TaskBase.title raw = Ok (TaskCreate.title d))
  /\ 1 <= TaskCreate.priority d <= 4
  /\ (TaskCreate.b_priority b = None -> TaskCreate.priority d = 2)
  /\ TaskCreate.description d = TaskCreate.b_description b
  /\ (forall text, TaskCreate.description d = Some text -> Py.len text <= 1000)
  /\ (TaskCreate.b_tags b = None -> TaskCreate.tags d = Some [])
  /\ (TaskCreate.b_tags b = Some None -> TaskCreate.tags d = None)
  /\ TaskCreate.due_date d = TaskCreate.b_due_date b.
Proof. exact (TaskCreate_validate_fields b d). Qed.

Lemma boundary_create_witness :
  TaskCreate.validate null_tags_body
  = Ok (TaskCreate.mk "Plan release" None 2 None None)
  /\ 1 <= TaskCreate.priority (TaskCreate.mk "Plan release" None 2 None None) <= 4.
Proof.
  assert (H : TaskCreate.validate null_tags_body
              = Ok (TaskCreate.mk "Plan release" None 2 None None))
    by reflexivity.
  split; [exact H|].
  destruct (boundary_create null_tags_body _ H) as (_ & Hp & _).
  exact Hp.
Defined.

(** X4. What [TaskUpdate] guarantees of a body it accepts: the change set is
    empty exactly when the body has no member at all; a member that is
    [null] is kept as a change to [None], for each of the six fields, the
    title, the status and the priority too; a title given is trimmed, not
    empty and of at most 200 characters, a priority given lies in 1..4, a
    description given has at most 1000 characters; description, tags and
    due date are taken as they are. *)
Theorem boundary_update (b : TaskUpdate.body) (u : TaskUpdate.t) :
  TaskUpdate.validate b = Ok u ->
  (TaskUpdate.dump_is_empty u = true
   <-> b = TaskUpdate.mk_body None None None None None None)
  /\ (TaskUpdate.b_title b = Some None -> TaskUpdate.title u = Some None)
  /\ (TaskUpdate.b_description b = Some None ->
      TaskUpdate.description u = Some None)
  /\ (TaskUpdate.b_status b = Some None -> TaskUpdate.status u = Some None)
  /\ (TaskUpdate.b_priority b = Some None -> TaskUpdate.priority u = Some None)
  /\ (TaskUpdate.b_tags b = Some None -> TaskUpdate.tags u = Some None)
  /\ (TaskUpdate.b_due_date b = Some None -> TaskUpdate.due_date u = Some None)
  /\ TaskUpdate.description u = TaskUpdate.b_description b
  /\ (forall title, TaskUpdate.title u = Some (Some title) ->
        1 <= Py.len title <= 200 /\ Py.no_surrounding_space title = true)
  /\ (forall p, TaskUpdate.priority u = Some (Some p) -> 1 <= p <= 4)
  /\ (forall text, TaskUpdate.description u = Some (Some text) ->
        Py.len text <= 1000)
  /\ TaskUpdate.tags u = TaskUpdate.b_tags b
  /\ TaskUpdate.due_date u = TaskUpdate.b_due_date b.
Proof.
  destruct b as [bt bd bs bp [bg|] [bdue|]]; unfold TaskUpdate.validate;
  cbn [TaskUpdate.b_title TaskUpdate.b_description TaskUpdate.b_status
       TaskUpdate.b_priority TaskUpdate.b_tags TaskUpdate.b_due_date];
  unfold TaskUpdate.supplied, TaskUpdate.nullable;
  assert (Htitle : forall s t,
            TaskUpdate.validate_title (Some s) = Ok (Some t) ->
            1 <= Py.len t <= 200 /\ Py.no_surrounding_space t = true)
    by (intros s t Hs; apply update_title_accepted in Hs; tauto);
  (destruct bt as [[s|]|];
    [destruct (TaskUpdate.validate_title (Some s)) as [[t|]|e] eqn:Et;
       [specialize (Htitle s t Et) | | discriminate] | |]);
    cbn [mbind result_bind TaskUpdate.validate_title
         TaskUpdate.title_not_empty_if_present];
    unfold TaskBase.description, TaskBase.priority;
    (destruct bd as [[text|]|];
       [destruct (Z.ltb_spec 1000 (Py.len text)); [discriminate|] | |]);
    cbn [mbind result_bind];
    (destruct bs as [[v|]|];
       [destruct (TaskStatus_of_value v) as [st|]; [|discriminate] | |]);
    cbn [mbind result_bind];
    (destruct bp as [[p|]|];
       [destruct (Z.ltb_spec p 1); [discriminate|];
        destruct (Z.ltb_spec 4 p); [discriminate|] | |]);
    cbn [mbind result_bind];
    intros [= <-]; cbn;
    repeat split; try discriminate; try reflexivity; try lia;
    try (intros ? [= <-]; first [tauto | lia]);
    try (simplify_eq; first [lia | apply Htitle]);
    try (intros Hnull; exact Hnull).
Qed.

Lemma boundary_update_witness :
  TaskUpdate.validate null_status_body = Ok null_status
  /\ TaskUpdate.status null_status = Some None.
Proof.
  assert (H : TaskUpdate.validate null_status_body = Ok null_status)
    by reflexivity.
  split; [exact H|].
  destruct (boundary_update null_status_body null_status H)
    as (_ & _ & _ & Hs & _).
  apply Hs. reflexivity.
Defined.

Lemma Task_new_fields (d : TaskDict.t) (T : Task.t) :
  Task.new d = Ok T ->
  Task.id T = TaskDict.id d
  /\ (exists stored, TaskDict.title d = Some stored
                     /\ Task.title T = Py.strip stored
                     /\ 3 <= Py.len stored <= 200
                     /\ 1 <= Py.len (Task.title T))
  /\ TaskDict.priority d = Some (Task.priority T)
  /\ 1 <= Task.priority T <= 4
  /\ TaskDict.status d = Some (Task.status T)
  /\ TaskDict.tags d = Some (Task.tags T)
  /\ Task.description T = TaskDict.description d
  /\ (forall text, Task.description T = Some text -> Py.len text <= 1000)
  /\ Task.due_date T = TaskDict.due_date d
  /\ Task.created_at T = TaskDict.created_at d
  /\ Task.updated_at T = TaskDict.updated_at d.
Proof.
  destruct d as [i ti de pr ta du st ca ua]. unfold Task.new.
  cbn [TaskDict.id TaskDict.title TaskDict.description TaskDict.priority
       TaskDict.tags TaskDict.due_date TaskDict.status TaskDict.created_at
       TaskDict.updated_at].
  destruct ti as [stored|]; [|discriminate].
  cbn [Task.required mbind result_bind].
  destruct (TaskBase.title stored) as [t|e] eqn:Et; [|discriminate].
  apply title_accepted in Et as (-> & Hraw & Hlen & _).
  cbn [mbind result_bind]. unfold TaskBase.description, TaskBase.priority.
  destruct de as [text|];
    [destruct (Z.ltb_spec 1000 (Py.len text)); [discriminate|]|];
    cbn [mbind result_bind];
    (destruct pr as [p|]; [|discriminate]);
    cbn [Task.required mbind result_bind];
    (destruct (Z.ltb_spec p 1); [discriminate|]);
    (destruct (Z.ltb_spec 4 p); [discriminate|]);
    cbn [orb mbind result_bind];
    (destruct st as [status|]; [|discriminate]);
    (destruct ta as [tags|]; [|discriminate]);
    cbn [Task.required mbind result_bind];
    intros [= <-]; cbn;
    repeat split; try reflexivity; try lia; try discriminate;
    try (exists stored; repeat split; try reflexivity; lia);
    try (intros ? [= <-]; lia).
Qed.

(** X5. What a caller is handed. When [Task] accepts a stored dict, the
    task returned has the id, the description, the due date and both time
    stamps of the dict; its priority, status and tags are those stored,
    none of them [None], the priority in 1..4; a description has at most
    1000 characters; and its title is the stored title trimmed, the stored
    title having 3 to 200 characters. *)
Theorem task_view (d : TaskDict.t) (T : Task.t) :
  Task.new d = Ok T ->
  Task.id T = TaskDict.id d
  /\ (exists stored, TaskDict.title d = Some stored
                     /\ Task.title T = Py.strip stored
                     /\ 3 <= Py.len stored <= 200
                     /\ 1 <= Py.len (Task.title T))
  /\ TaskDict.priority d = Some (Task.priority T)
  /\ 1 <= Task.priority T <= 4
  /\ TaskDict.status d = Some (Task.status T)
  /\ TaskDict.tags d = Some (Task.tags T)
  /\ Task.description T = TaskDict.description d
  /\ (forall text, Task.description T = Some text -> Py.len text <= 1000)
  /\ Task.due_date T = TaskDict.due_date d
  /\ Task.created_at T = TaskDict.created_at d
  /\ Task.updated_at T = TaskDict.updated_at d.
Proof. exact (Task_new_fields d T). Qed.

Lemma task_view_witness :
  let d := {| TaskDict.id := "id1"; TaskDict.title := Some "Plan release";
              TaskDict.description := None; TaskDict.priority := Some 3;
              TaskDict.tags := Some []; TaskDict.due_date := None;
              TaskDict.status := Some PENDING;
              TaskDict.created_at := t0; TaskDict.updated_at := t0 |} in
  let T := {| Task.id := "id1"; Task.title := "Plan release";
              Task.description := None; Task.priority := 3;
              Task.status := PENDING; Task.tags := [];
              Task.due_date := None; Task.created_at := t0;
              Task.updated_at := t0 |} in
  Task.new d = Ok T /\ 1 <= Task.priority T <= 4.
Proof.
  intros d T.
  assert (H : Task.new d = Ok T) by reflexivity.
  split; [exact H|].
  destruct (task_view d T H) as (_ & _ & _ & Hp & _). exact Hp.
Defined.

(** ** Listing, statistics and search together *)

Section Listing.

Context {A B : Type}.
Implicit Types (f : A -> result B) (l : list A) (bs : list B).

Lemma comprehension_Ok f l bs :
  comprehension f l = Ok bs <-> Forall2 (fun a b => f a = Ok b) l bs.
Proof.
  split.
  - revert bs. induction l as [|a l IH]; cbn [comprehension]; intros bs H.
    + injection H as <-. constructor.
    + destruct (f a) as [b|e] eqn:Ea; [|discriminate H].
      destruct (comprehension f l) as [ks|e] eqn:El; [|discriminate H].
      cbn in H. injection H as <-. constructor; [exact Ea | apply IH; reflexivity].
  - induction 1 as [|a b l0 k0 Ha _ IH]; cbn [comprehension]; [reflexivity|].
    rewrite Ha, IH. reflexivity.
Qed.

(** Selecting before building equals building and then selecting, when the
    two conditions agree on every element and what is built from it. *)
Lemma comprehension_filter f (p : A -> bool) (q : B -> bool) l bs :
  (forall a b, f a = Ok b -> p a = q b) ->
  Forall2 (fun a b => f a = Ok b) l bs ->
  comprehension f (List.filter p l) = Ok (List.filter q bs).
Proof.
  intros Hpq. induction 1 as [|a b l0 k0 Ha _ IH]; [reflexivity|].
  cbn [List.filter]. rewrite <- (Hpq a b Ha).
  destruct (p a); [|exact IH].
  cbn [comprehension]. rewrite Ha, IH. reflexivity.
Qed.

(** What is built from a selection is a sublist of what is built from the
    whole list. *)
Lemma comprehension_sublist f (p : A -> bool) l bs :
  Forall2 (fun a b => f a = Ok b) l bs ->
  exists found, comprehension f (List.filter p l) = Ok found
                /\ sublist found bs.
Proof.
  induction 1 as [|a b l0 k0 Ha _ (found & Hf & Hs)].
  - exists []. split; [reflexivity | constructor].
  - cbn [List.filter]. destruct (p a).
    + exists (b :: found). cbn [comprehension]. rewrite Ha, Hf.
      split; [reflexivity | apply sublist_skip; exact Hs].
    + exists found. split; [exact Hf | apply sublist_cons; exact Hs].
Qed.

Lemma sum_ones_Forall2 f (p : A -> bool) (q : B -> bool) l bs :
  (forall a b, f a = Ok b -> p a = q b) ->
  Forall2 (fun a b => f a = Ok b) l bs ->
  sum_ones p l = count q bs.
Proof.
  intros Hpq. induction 1 as [|a b l0 k0 Ha _ IH]; [reflexivity|].
  cbn [sum_ones]. rewrite count_cons, IH, (Hpq a b Ha). reflexivity.
Qed.

End Listing.

Lemma view_status (v : string) (d : TaskDict.t) (T : Task.t) :
  Task.new d = Ok T -> TaskDict.status_is v d = task_status_is v T.
Proof.
  intros H. apply Task_new_fields in H as (_ & _ & _ & _ & Hst & _).
  unfold TaskDict.status_is, task_status_is. rewrite Hst. reflexivity.
Qed.

Lemma get_all_tasks_Forall2 (repository : InMemoryTaskRepository)
  (session_id : string) (all : list Task.t) :
  TaskService.get_all_tasks repository session_id None = Ok all
  <-> Forall2 view_of (InMemory.find_all repository session_id) all.
Proof.
  unfold TaskService.get_all_tasks, view_of.
  cbn [find_all InMemoryTaskRepository_IRepository].
  apply comprehension_Ok.
Qed.

(** X6. Listing a session without a filter succeeds exactly when [Task]
    accepts every stored dict of the session, and then returns one task per
    stored dict, in the order of the partition. *)
Theorem listing_one_per_task (repository : InMemoryTaskRepository)
  (session_id : string) (all : list Task.t) :
  TaskService.get_all_tasks repository session_id None = Ok all
  <-> Forall2 view_of (InMemory.find_all repository session_id) all.
Proof. exact (get_all_tasks_Forall2 repository session_id all). Qed.

(** X7. One stored dict that [Task] rejects makes every listing of its
    session without a filter fail. *)
Theorem listing_fails_on_invalid (repository : InMemoryTaskRepository)
  (session_id : string) (d : TaskDict.t) (e : exn) :
  In d (InMemory.find_all repository session_id) ->
  Task.new d = Raise e ->
  exists e', TaskService.get_all_tasks repository session_id None = Raise e'.
Proof.
  intros Hin Hbad.
  destruct (TaskService.get_all_tasks repository session_id None)
    as [all|e'] eqn:E; [|exists e'; reflexivity].
  apply get_all_tasks_Forall2 in E. exfalso.
  apply list_elem_of_In, list_elem_of_lookup in Hin as [i Hi].
  destruct (Forall2_lookup_l _ _ _ i d E Hi) as (T & _ & HT).
  unfold view_of in HT. congruence.
Qed.

Lemma listing_fails_on_invalid_witness :
  let d := {| TaskDict.id := "id1"; TaskDict.title := Some "a";
              TaskDict.description := None; TaskDict.priority := Some 2;
              TaskDict.tags := Some []; TaskDict.due_date := None;
              TaskDict.status := Some PENDING;
              TaskDict.created_at := t0; TaskDict.updated_at := t0 |} in
  In d (InMemory.find_all one_short_title "s1")
  /\ Task.new d = Raise ValidationError
  /\ exists e', TaskService.get_all_tasks one_short_title "s1" None = Raise e'.
Proof.
  intros d.
  assert (H1 : In d (InMemory.find_all one_short_title "s1"))
    by (left; reflexivity).
  assert (H2 : Task.new d = Raise ValidationError) by reflexivity.
  split; [exact H1|]. split; [exact H2|].
  exact (listing_fails_on_invalid one_short_title "s1" d ValidationError H1 H2).
Defined.

(** X8. When the listing of a session without a filter succeeds, the
    listing with a filter string that is not empty succeeds too and returns
    exactly the tasks of the full listing whose status is that string, in
    the same order. *)
Theorem filtered_listing (repository : InMemoryTaskRepository)
  (session_id v : string) (all : list Task.t) :
  TaskService.get_all_tasks repository session_id None = Ok all ->
  v <> "" ->
  TaskService.get_all_tasks repository session_id (Some v)
  = Ok (List.filter (task_status_is v) all).
Proof.
  intros Hall Hv. apply get_all_tasks_Forall2 in Hall.
  unfold TaskService.get_all_tasks.
  cbn [find_all InMemoryTaskRepository_IRepository].
  destruct v as [|c v]; [contradiction Hv; reflexivity|]. cbn [Py.truthy].
  apply comprehension_filter; [|exact Hall].
  intros d T. apply view_status.
Qed.

Lemma filtered_listing_witness :
  let T := {| Task.id := "id1"; Task.title := "Plan release";
              Task.description := None; Task.priority := 3;
              Task.status := PENDING; Task.tags := [];
              Task.due_date := None; Task.created_at := t0;
              Task.updated_at := t0 |} in
  TaskService.get_all_tasks one_task "s1" None = Ok [T]
  /\ "PENDING" <> ""
  /\ TaskService.get_all_tasks one_task "s1" (Some "PENDING")
     = Ok (List.filter (task_status_is "PENDING") [T]).
Proof.
  intros T.
  assert (H1 : TaskService.get_all_tasks one_task "s1" None = Ok [T])
    by reflexivity.
  assert (H2 : "PENDING" <> "") by discriminate.
  split; [exact H1|]. split; [exact H2|].
  exact (filtered_listing one_task "s1" "PENDING" [T] H1 H2).
Defined.

Lemma view_has_status (d : TaskDict.t) (T : Task.t) :
  Task.new d = Ok T -> has_status None d = false.
Proof.
  intros H. apply Task_new_fields in H as (_ & _ & _ & _ & Hst & _).
  unfold has_status. rewrite Hst. reflexivity.
Qed.

(** X9. When the listing of a session without a filter succeeds, the
    statistics agree with it: [total] is the number of tasks listed, each
    bucket is the number of listed tasks with that status, and the four
    buckets sum to [total]. *)
Theorem statistics_agree_with_listing (repository : InMemoryTaskRepository)
  (session_id : string) (all : list Task.t) :
  TaskService.get_all_tasks repository session_id None = Ok all ->
  let stats := TaskService.get_statistics repository session_id in
  TaskStats.total stats = Z.of_nat (length all)
  /\ TaskStats.pending stats = count (task_status_is "PENDING") all
  /\ TaskStats.in_progress stats = count (task_status_is "IN_PROGRESS") all
  /\ TaskStats.completed stats = count (task_status_is "COMPLETED") all
  /\ TaskStats.cancelled stats = count (task_status_is "CANCELLED") all
  /\ TaskStats.pending stats + TaskStats.in_progress stats
     + TaskStats.completed stats + TaskStats.cancelled stats
     = TaskStats.total stats.
Proof.
  intros Hall stats. apply get_all_tasks_Forall2 in Hall. unfold view_of in Hall.
  pose proof (statistics_tally repository session_id)
    as (Ht & _ & _ & _ & _ & Hsum).
  fold stats in Ht, Hsum.
  assert (Hnone : count (has_status None)
                    (InMemory.find_all repository session_id) = 0).
  { clear Ht Hsum. induction Hall as [|d T l k Hd _ IH]; [reflexivity|].
    rewrite count_cons, IH, (view_has_status d T Hd). reflexivity. }
  rewrite Hnone, Z.add_0_r in Hsum.
  split; [rewrite Ht, (Forall2_length _ _ _ Hall); reflexivity|].
  subst stats. unfold TaskService.get_statistics.
  cbn [find_all InMemoryTaskRepository_IRepository TaskStats.total
       TaskStats.pending TaskStats.in_progress TaskStats.completed
       TaskStats.cancelled] in *.
  repeat split; try exact Hsum;
    apply (sum_ones_Forall2 Task.new); try exact Hall;
    intros d T; apply view_status.
Qed.

Lemma statistics_agree_with_listing_witness :
  let T := {| Task.id := "id1"; Task.title := "Plan release";
              Task.description := None; Task.priority := 3;
              Task.status := PENDING; Task.tags := [];
              Task.due_date := None; Task.created_at := t0;
              Task.updated_at := t0 |} in
  let stats := TaskService.get_statistics one_task "s1" in
  TaskService.get_all_tasks one_task "s1" None = Ok [T]
  /\ TaskStats.pending stats + TaskStats.in_progress stats
     + TaskStats.completed stats + TaskStats.cancelled stats
     = TaskStats.total stats.
Proof.
  intros T stats.
  assert (H1 : TaskService.get_all_tasks one_task "s1" None = Ok [T])
    by reflexivity.
  split; [exact H1|].
  destruct (statistics_agree_with_listing one_task "s1" [T] H1)
    as (_ & _ & _ & _ & _ & Hsum).
  exact Hsum.
Defined.

Lemma view_titled (d : TaskDict.t) (T : Task.t) :
  Task.new d = Ok T -> TaskDict.title d <> None.
Proof.
  intros H. apply Task_new_fields in H as (_ & (stored & Hs & _) & _). congruence.
Qed.

(** X10. When the listing of a session without a filter succeeds, a search
    of the session with a query of at least 2 characters succeeds too, and
    what it returns is a sublist of the listing: tasks of the session, each
    at most once, in the order of the listing. *)
Theorem search_within_listing (repository : InMemoryTaskRepository)
  (session_id q : string) (all : list Task.t) :
  TaskService.get_all_tasks repository session_id None = Ok all ->
  2 <= Py.len q ->
  exists found,
    Endpoint.search_tasks repository q session_id = Ok found
    /\ sublist found all.
Proof.
  intros Hall Hq. apply get_all_tasks_Forall2 in Hall. unfold view_of in Hall.
  rewrite search_tasks_titled; [|exact Hq|].
  - apply comprehension_sublist. exact Hall.
  - intros t Ht. apply list_elem_of_In, list_elem_of_lookup in Ht as [i Hi].
    destruct (Forall2_lookup_l _ _ _ i t Hall Hi) as (T & _ & HT).
    apply (view_titled t T HT).
Qed.

Lemma search_within_listing_witness :
  let T := {| Task.id := "id1"; Task.title := "Plan release";
              Task.description := None; Task.priority := 3;
              Task.status := PENDING; Task.tags := [];
              Task.due_date := None; Task.created_at := t0;
              Task.updated_at := t0 |} in
  TaskService.get_all_tasks one_task "s1" None = Ok [T]
  /\ 2 <= Py.len "REL"
  /\ exists found,
       Endpoint.search_tasks one_task "REL" "s1" = Ok found
       /\ sublist found [T].
Proof.
  intros T.
  assert (H1 : TaskService.get_all_tasks one_task "s1" None = Ok [T])
    by reflexivity.
  assert (H2 : 2 <= Py.len "REL") by (vm_compute; discriminate).
  split; [exact H1|]. split; [exact H2|].
  exact (search_within_listing one_task "s1" "REL" [T] H1 H2).
Defined.

(** X11. Past the length check, search does not tell the case of the query:
    two queries of at least 2 characters each with the same lower-cased
    form get the same answer, be it a list of tasks or an error. (The check
    itself is on the query as received.) *)
Theorem search_ignores_query_case (repository : InMemoryTaskRepository)
  (session_id q1 q2 : string) :
  2 <= Py.len q1 ->
  2 <= Py.len q2 ->
  Py.lower q1 = Py.lower q2 ->
  Endpoint.search_tasks repository q1 session_id
  = Endpoint.search_tasks repository q2 session_id.
Proof.
  intros H1 H2 Hq. unfold Endpoint.search_tasks, TaskService.search_tasks.
  destruct (Z.ltb_spec (Py.len q1) 2); [lia|].
  destruct (Z.ltb_spec (Py.len q2) 2); [lia|].
  rewrite Hq. reflexivity.
Qed.

Lemma search_ignores_query_case_witness :
  2 <= Py.len "BU"
  /\ 2 <= Py.len "bu"
  /\ Py.lower "BU" = Py.lower "bu"
  /\ Endpoint.search_tasks (serve repository0 two_tasks) "BU" "s1"
     = Endpoint.search_tasks (serve repository0 two_tasks) "bu" "s1".
Proof.
  assert (H1 : 2 <= Py.len "BU") by (vm_compute; discriminate).
  assert (H2 : 2 <= Py.len "bu") by (vm_compute; discriminate).
  assert (H3 : Py.lower "BU" = Py.lower "bu") by reflexivity.
  split; [exact H1|]. split; [exact H2|]. split; [exact H3|].
  exact (search_ignores_query_case (serve repository0 two_tasks) "s1"
           "BU" "bu" H1 H2 H3).
Defined.

Lemma matches_occurs (q : string) (t : TaskDict.t) :
  matches q t = true
  <-> (exists title, TaskDict.title t = Some title
                     /\ occurs_in (Py.lower q) (Py.lower title))
      \/ (exists text, TaskDict.description t = Some text
                       /\ occurs_in (Py.lower q) (Py.lower text)).
Proof.
  unfold matches, occurs_in. rewrite orb_true_iff. split.
  - intros [H|H]; [left|right].
    + destruct (TaskDict.title t) as [title|]; [|discriminate].
      exists title. split; [reflexivity | apply contains_occurs; exact H].
    + destruct (TaskDict.description t) as [text|]; [|discriminate].
      exists text. split; [reflexivity | apply contains_occurs; exact H].
  - intros [(title & -> & H)|(text & -> & H)]; [left|right];
      apply contains_occurs; exact H.
Qed.

(** X12. In a session all of whose stored tasks have a title, a search with
    a query of at least 2 characters builds its answer from exactly the
    stored tasks in whose lower-cased title, or lower-cased description if
    they have one, the lower-cased query occurs, in the order of the
    partition. *)
Theorem search_selects_occurrences (repository : InMemoryTaskRepository)
  (session_id q : string) :
  2 <= Py.len q ->
  (forall t, In t (InMemory.find_all repository session_id) ->
             TaskDict.title t <> None) ->
  exists selected,
    Endpoint.search_tasks repository q session_id
    = comprehension Task.new selected
    /\ selected = List.filter (matches q)
                    (InMemory.find_all repository session_id)
    /\ forall t,
         In t selected
         <-> In t (InMemory.find_all repository session_id)
             /\ ((exists title, TaskDict.title t = Some title
                                /\ occurs_in (Py.lower q) (Py.lower title))
                 \/ (exists text, TaskDict.description t = Some text
                                  /\ occurs_in (Py.lower q) (Py.lower text))).
Proof.
  intros Hq Htitled.
  exists (List.filter (matches q) (InMemory.find_all repository session_id)).
  split; [apply search_tasks_titled; assumption|]. split; [reflexivity|].
  intros t. rewrite filter_In, matches_occurs. reflexivity.
Qed.

Lemma search_selects_occurrences_witness :
  2 <= Py.len "bu"
  /\ (forall t, In t (InMemory.find_all (serve repository0 two_tasks) "s1") ->
                TaskDict.title t <> None)
  /\ exists selected,
       Endpoint.search_tasks (serve repository0 two_tasks) "bu" "s1"
       = comprehension Task.new selected
       /\ selected = List.filter (matches "bu")
                       (InMemory.find_all (serve repository0 two_tasks) "s1").
Proof.
  assert (H1 : 2 <= Py.len "bu") by (vm_compute; discriminate).
  assert (H2 : forall t,
             In t (InMemory.find_all (serve repository0 two_tasks) "s1") ->
             TaskDict.title t <> None).
  { intros t [<-|[<-|[]]]; discriminate. }
  split; [exact H1|]. split; [exact H2|].
  destruct (search_selects_occurrences (serve repository0 two_tasks) "s1" "bu"
              H1 H2) as (selected & Hs & He & _).
  exists selected. split; assumption.
Defined.

(** ** Creation, update and deletion in the partition *)

(** X13. Whatever [create_task] answers, it has appended exactly one dict to
    the end of the partition of the session: the dict carries the drawn id,
    the fields of the draft, status [PENDING] and the clock reading as both
    time stamps, and the answer is what [Task] makes of that dict. The
    order of a partition is the order of creation. *)
Theorem create_task_appends (repository : InMemoryTaskRepository)
  (session_id : string) (draft : TaskCreate.t) (uuid now : string) :
  let created := TaskService.create_task repository session_id draft uuid now in
  let d :=
    {| TaskDict.id := uuid;
       TaskDict.title := Some (TaskCreate.title draft);
       TaskDict.description := TaskCreate.description draft;
       TaskDict.priority := Some (TaskCreate.priority draft);
       TaskDict.tags := TaskCreate.tags draft;
       TaskDict.due_date := TaskCreate.due_date draft;
       TaskDict.status := Some PENDING;
       TaskDict.created_at := now;
       TaskDict.updated_at := now |} in
  InMemory.find_all (fst created) session_id
  = (InMemory.find_all repository session_id ++ [d])%list
  /\ snd created = Task.new d
  /\ TaskStats.total (TaskService.get_statistics (fst created) session_id)
     = TaskStats.total (TaskService.get_statistics repository session_id) + 1.
Proof.
  intros created d. subst created. unfold TaskService.create_task.
  cbn [create InMemoryTaskRepository_IRepository InMemory.create fst snd].
  fold d. rewrite find_all_insert.
  split; [reflexivity|]. split; [reflexivity|].
  unfold TaskService.get_statistics.
  cbn [find_all InMemoryTaskRepository_IRepository TaskStats.total].
  rewrite find_all_insert, length_app. cbn [length]. lia.
Qed.

(** X14. Creation hides no task: an id under which the session held a task
    before is answered with the same task afterwards, also when the id
    drawn for the new task is that very id; the new task then stays out of
    reach of [get_task_by_id]. *)
Theorem create_task_keeps_found (repository : InMemoryTaskRepository)
  (session_id task_id : string) (draft : TaskCreate.t) (uuid now : string)
  (task : TaskDict.t) :
  InMemory.find_by_id repository session_id task_id = Some task ->
  let after :=
    fst (TaskService.create_task repository session_id draft uuid now) in
  InMemory.find_by_id after session_id task_id = Some task
  /\ TaskService.get_task_by_id after session_id task_id
     = TaskService.get_task_by_id repository session_id task_id.
Proof.
  intros Hfound after.
  assert (Hafter : InMemory.find_by_id after session_id task_id = Some task).
  { subst after. unfold TaskService.create_task.
    cbn [create InMemoryTaskRepository_IRepository InMemory.create fst].
    unfold InMemory.find_by_id in *. rewrite find_all_insert.
    unfold InMemory.first_with_id in *.
    destruct (list_find (fun t => TaskDict.id t = task_id)
                (InMemory.find_all repository session_id))
      as [[i t]|] eqn:E; [|discriminate].
    rewrite (list_find_app_l _ _ _ _ _ E). exact Hfound. }
  split; [exact Hafter|].
  unfold TaskService.get_task_by_id.
  cbn [find_by_id InMemoryTaskRepository_IRepository].
  rewrite Hafter, Hfound. reflexivity.
Qed.

Lemma create_task_keeps_found_witness :
  let task :=
    {| TaskDict.id := "id1"; TaskDict.title := Some "Plan release";
       TaskDict.description := None; TaskDict.priority := Some 3;
       TaskDict.tags := Some []; TaskDict.due_date := None;
       TaskDict.status := Some PENDING;
       TaskDict.created_at := t0; TaskDict.updated_at := t0 |} in
  InMemory.find_by_id one_task "s1" "id1" = Some task
  /\ InMemory.find_by_id
       (fst (TaskService.create_task one_task "s1" fix_bug "id1" t1)) "s1" "id1"
     = Some task.
Proof.
  intros task.
  assert (H : InMemory.find_by_id one_task "s1" "id1" = Some task)
    by reflexivity.
  split; [exact H|].
  destruct (create_task_keeps_found one_task "s1" "id1" fix_bug "id1" t1 task H)
    as [Ha _].
  exact Ha.
Defined.

(** X15. Round trip of an update: when [update_task] returns a task, a
    [get_task_by_id] of the same id in the repository it leaves behind
    returns that very task. *)
Theorem update_get_round_trip (repository : InMemoryTaskRepository)
  (session_id task_id : string) (updates : TaskUpdate.t) (now : string)
  (T : Task.t) :
  snd (TaskService.update_task repository session_id task_id updates now)
  = Ok T ->
  TaskService.get_task_by_id
    (fst (TaskService.update_task repository session_id task_id updates now))
    session_id task_id
  = Ok T.
Proof.
  unfold TaskService.update_task.
  destruct (TaskUpdate.dump_is_empty updates); [discriminate|].
  cbn [update InMemoryTaskRepository_IRepository].
  destruct (InMemory.first_with_id task_id
              (InMemory.find_all repository session_id))
    as [[i t]|] eqn:Hfirst.
  - destruct (update_found repository session_id task_id updates now i t Hfirst)
      as [Hupd Hafter].
    rewrite Hupd in *. cbn [fst snd] in *. intros HT.
    unfold TaskService.get_task_by_id.
    cbn [find_by_id InMemoryTaskRepository_IRepository].
    unfold InMemory.find_by_id. rewrite Hafter. exact HT.
  - unfold InMemory.update. rewrite Hfirst. discriminate.
Qed.

Lemma update_get_round_trip_witness :
  let T := {| Task.id := "id1"; Task.title := "Plan release";
              Task.description := None; Task.priority := 1;
              Task.status := PENDING; Task.tags := [];
              Task.due_date := None; Task.created_at := t0;
              Task.updated_at := t1 |} in
  snd (TaskService.update_task one_task "s1" "id1" priority_1 t1) = Ok T
  /\ TaskService.get_task_by_id
       (fst (TaskService.update_task one_task "s1" "id1" priority_1 t1))
       "s1" "id1"
     = Ok T.
Proof.
  intros T.
  assert (H : snd (TaskService.update_task one_task "s1" "id1" priority_1 t1)
              = Ok T) by reflexivity.
  split; [exact H|].
  exact (update_get_round_trip one_task "s1" "id1" priority_1 t1 T H).
Defined.

Lemma map_insert_same {A B} (f : A -> B) (l : list A) (i : nat) (x y : A) :
  l !! i = Some x -> f y = f x -> List.map f (<[i:=y]> l) = List.map f l.
Proof.
  revert i. induction l as [|a l IH]; intros i Hi Hf; [discriminate Hi|].
  destruct i as [|i]; simpl in *.
  - injection Hi as ->. rewrite Hf. reflexivity.
  - f_equal. apply IH; assumption.
Qed.

Lemma filter_insert_out {A} (p : A -> bool) (l : list A) (i : nat) (x y : A) :
  l !! i = Some x -> p x = false -> p y = false ->
  List.filter p (<[i:=y]> l) = List.filter p l.
Proof.
  revert i. induction l as [|a l IH]; intros i Hi Hx Hy; [discriminate Hi|].
  destruct i as [|i]; simpl in *.
  - injection Hi as ->. rewrite Hx, Hy. reflexivity.
  - rewrite (IH i Hi Hx Hy). reflexivity.
Qed.

Lemma update_task_preserves (repository : InMemoryTaskRepository)
  (session_id task_id : string) (updates : TaskUpdate.t) (now : string) :
  let before := InMemory.find_all repository session_id in
  let after :=
    InMemory.find_all
      (fst (TaskService.update_task repository session_id task_id updates now))
      session_id in
  List.map TaskDict.id after = List.map TaskDict.id before
  /\ List.map TaskDict.created_at after = List.map TaskDict.created_at before
  /\ List.filter (fun t => negb (String.eqb (TaskDict.id t) task_id)) after
     = List.filter (fun t => negb (String.eqb (TaskDict.id t) task_id)) before.
Proof.
  intros before after. subst after. unfold TaskService.update_task.
  destruct (TaskUpdate.dump_is_empty updates); [repeat split|].
  cbn [update InMemoryTaskRepository_IRepository].
  destruct (InMemory.first_with_id task_id
              (InMemory.find_all repository session_id))
    as [[i t]|] eqn:Hfirst.
  - destruct (update_found repository session_id task_id updates now i t Hfirst)
      as [Hupd _].
    rewrite Hupd. cbn [fst]. rewrite find_all_insert. fold before.
    apply list_find_Some in Hfirst as (Hi & Hid & _). fold before in Hi.
    split; [apply (map_insert_same _ _ _ t); [exact Hi | reflexivity]|].
    split; [apply (map_insert_same _ _ _ t); [exact Hi | reflexivity]|].
    apply (filter_insert_out _ _ _ t); [exact Hi | |];
      cbn [TaskDict.id TaskDict.set_updated_at TaskDict.update];
      rewrite Hid, String.eqb_refl; reflexivity.
  - unfold InMemory.update. rewrite Hfirst. repeat split.
Qed.

(** X16. Whatever [update_task] answers, it neither adds nor removes nor
    reorders tasks: the ids and the creation stamps of the partition are,
    position by position, what they were, and every task whose id is not
    the one addressed is unchanged. *)
Theorem update_task_leaves_others (repository : InMemoryTaskRepository)
  (session_id task_id : string) (updates : TaskUpdate.t) (now : string) :
  let before := InMemory.find_all repository session_id in
  let after :=
    InMemory.find_all
      (fst (TaskService.update_task repository session_id task_id updates now))
      session_id in
  List.map TaskDict.id after = List.map TaskDict.id before
  /\ List.map TaskDict.created_at after = List.map TaskDict.created_at before
  /\ List.filter (fun t => negb (String.eqb (TaskDict.id t) task_id)) after
     = List.filter (fun t => negb (String.eqb (TaskDict.id t) task_id)) before.
Proof. exact (update_task_preserves repository session_id task_id updates now). Qed.

Lemma list_remove_at {A} `{EqDecision A} (l : list A) (i : nat) (x : A) :
  l !! i = Some x ->
  (forall j y, l !! j = Some y -> (j < i)%nat -> y <> x) ->
  list_remove x l = base.delete i l.
Proof.
  revert i. induction l as [|a l IH]; intros i Hi Hbefore; [discriminate Hi|].
  destruct i as [|i]; simpl in *.
  - injection Hi as ->. destruct (decide (x = x)); [reflexivity | congruence].
  - destruct (decide (a = x)) as [->|_].
    + exfalso. apply (Hbefore 0%nat x); [reflexivity | lia | reflexivity].
    + f_equal. apply IH; [exact Hi|].
      intros j y Hj Hlt. apply (Hbefore (S j) y); [exact Hj | lia].
Qed.

Lemma delete_task_found (repository : InMemoryTaskRepository)
  (session_id task_id : string) (i : nat) (task : TaskDict.t) :
  InMemory.first_with_id task_id (InMemory.find_all repository session_id)
  = Some (i, task) ->
  let deleted := TaskService.delete_task repository session_id task_id in
  snd deleted = Ok tt
  /\ InMemory.find_all (fst deleted) session_id
     = base.delete i (InMemory.find_all repository session_id)
  /\ TaskStats.total (TaskService.get_statistics (fst deleted) session_id)
     = TaskStats.total (TaskService.get_statistics repository session_id) - 1.
Proof.
  intros Hfirst deleted. subst deleted. unfold TaskService.delete_task.
  cbn [delete InMemoryTaskRepository_IRepository].
  unfold InMemory.delete, InMemory.find_by_id. rewrite Hfirst.
  cbn [fmap option_fmap option_map snd fst]. rewrite find_all_insert.
  apply list_find_Some in Hfirst as (Hi & Hid & Hbefore).
  assert (Hrm : list_remove task (InMemory.find_all repository session_id)
                = base.delete i (InMemory.find_all repository session_id)).
  { apply list_remove_at; [exact Hi|].
    intros j y Hj Hlt ->. apply (Hbefore j task Hj Hlt). exact Hid. }
  split; [reflexivity|]. split; [exact Hrm|].
  unfold TaskService.get_statistics.
  cbn [find_all InMemoryTaskRepository_IRepository TaskStats.total].
  rewrite find_all_insert, Hrm, length_delete by (rewrite Hi; eauto).
  pose proof (lookup_lt_Some _ _ _ Hi). lia.
Qed.

(** X17. Deleting an id that the session holds succeeds and takes out of the
    partition the first task with that id and nothing else: the tasks before
    it and after it stay, in their order, and the statistics count one task
    less. *)
Theorem delete_task_removes_first (repository : InMemoryTaskRepository)
  (session_id task_id : string) (i : nat) (task : TaskDict.t) :
  InMemory.first_with_id task_id (InMemory.find_all repository session_id)
  = Some (i, task) ->
  let deleted := TaskService.delete_task repository session_id task_id in
  snd deleted = Ok tt
  /\ InMemory.find_all (fst deleted) session_id
     = base.delete i (InMemory.find_all repository session_id)
  /\ TaskStats.total (TaskService.get_statistics (fst deleted) session_id)
     = TaskStats.total (TaskService.get_statistics repository session_id) - 1.
Proof. exact (delete_task_found repository session_id task_id i task). Qed.

Lemma delete_task_removes_first_witness :
  let task :=
    {| TaskDict.id := "id1"; TaskDict.title := Some "Plan release";
       TaskDict.description := None; TaskDict.priority := Some 3;
       TaskDict.tags := Some []; TaskDict.due_date := None;
       TaskDict.status := Some PENDING;
       TaskDict.created_at := t0; TaskDict.updated_at := t0 |} in
  InMemory.first_with_id "id1" (InMemory.find_all one_task "s1")
  = Some (0%nat, task)
  /\ snd (TaskService.delete_task one_task "s1" "id1") = Ok tt
  /\ InMemory.find_all (fst (TaskService.delete_task one_task "s1" "id1")) "s1"
     = base.delete 0%nat (InMemory.find_all one_task "s1").
Proof.
  intros task.
  assert (H : InMemory.first_with_id "id1" (InMemory.find_all one_task "s1")
              = Some (0%nat, task)) by reflexivity.
  split; [exact H|].
  destruct (delete_task_removes_first one_task "s1" "id1" 0%nat task H)
    as (Ha & Hb & _).
  split; assumption.
Defined.

Lemma find_absent_after_delete (l : list TaskDict.t) (i : nat)
  (task : TaskDict.t) :
  NoDup (List.map TaskDict.id l) -> l !! i = Some task ->
  InMemory.first_with_id (TaskDict.id task) (base.delete i l) = None.
Proof.
  intros Hnd Hi. unfold InMemory.first_with_id.
  apply list_find_None, Forall_forall. intros y Hy Hsame.
  apply list_elem_of_lookup in Hy as [j Hj].
  assert (Hmap : forall k t, l !! k = Some t ->
                   List.map TaskDict.id l !! k = Some (TaskDict.id t)).
  { intros k t Hk. change (List.map TaskDict.id l) with (TaskDict.id <$> l).
    rewrite list_lookup_fmap, Hk. reflexivity. }
  destruct (decide (j < i)%nat) as [Hlt|Hge].
  - rewrite list_lookup_delete_lt in Hj by exact Hlt.
    pose proof (Hmap j y Hj) as Hy. rewrite Hsame in Hy.
    pose proof (NoDup_lookup _ _ _ _ Hnd Hy (Hmap i task Hi)). lia.
  - rewrite list_lookup_delete_ge in Hj by lia.
    pose proof (Hmap (S j) y Hj) as Hy. rewrite Hsame in Hy.
    pose proof (NoDup_lookup _ _ _ _ Hnd Hy (Hmap i task Hi)). lia.
Qed.

(** X18. Deleting is not idempotent where ids are unique: when no two tasks
    of the session share an id and the session holds the id, the first
    deletion succeeds; after it a get of the id fails with status 404, and
    a second deletion fails with status 404 and changes nothing. *)
Theorem delete_task_twice (repository : InMemoryTaskRepository)
  (session_id task_id : string) (task : TaskDict.t) :
  NoDup (List.map TaskDict.id (InMemory.find_all repository session_id)) ->
  InMemory.find_by_id repository session_id task_id = Some task ->
  let first := TaskService.delete_task repository session_id task_id in
  snd first = Ok tt
  /\ TaskService.get_task_by_id (fst first) session_id task_id
     = Raise (HTTPException 404 "Task not found")
  /\ TaskService.delete_task (fst first) session_id task_id
     = (fst first, Raise (HTTPException 404 "Task not found")).
Proof.
  intros Hnd Hfound first.
  unfold InMemory.find_by_id in Hfound.
  destruct (InMemory.first_with_id task_id
              (InMemory.find_all repository session_id))
    as [[i t]|] eqn:Hfirst; [|discriminate].
  cbn in Hfound. injection Hfound as ->.
  destruct (delete_task_found repository session_id task_id i task Hfirst)
    as (Hok & Hafter & _).
  fold first in Hok, Hafter.
  apply list_find_Some in Hfirst as (Hi & Hid & _).
  pose proof (find_absent_after_delete _ i task Hnd Hi) as Hgone.
  rewrite Hid, <- Hafter in Hgone.
  assert (Hnone : InMemory.find_by_id (fst first) session_id task_id = None).
  { unfold InMemory.find_by_id. rewrite Hgone. reflexivity. }
  split; [exact Hok|]. split.
  - unfold TaskService.get_task_by_id.
    cbn [find_by_id InMemoryTaskRepository_IRepository].
    rewrite Hnone. reflexivity.
  - unfold TaskService.delete_task.
    cbn [delete InMemoryTaskRepository_IRepository].
    unfold InMemory.delete. rewrite Hnone. reflexivity.
Qed.

Lemma delete_task_twice_witness :
  let task :=
    {| TaskDict.id := "id1"; TaskDict.title := Some "Plan release";
       TaskDict.description := None; TaskDict.priority := Some 3;
       TaskDict.tags := Some []; TaskDict.due_date := None;
       TaskDict.status := Some PENDING;
       TaskDict.created_at := t0; TaskDict.updated_at := t0 |} in
  let first := TaskService.delete_task one_task "s1" "id1" in
  NoDup (List.map TaskDict.id (InMemory.find_all one_task "s1"))
  /\ InMemory.find_by_id one_task "s1" "id1" = Some task
  /\ snd first = Ok tt
  /\ TaskService.delete_task (fst first) "s1" "id1"
     = (fst first, Raise (HTTPException 404 "Task not found")).
Proof.
  intros task first.
  assert (H1 : NoDup (List.map TaskDict.id (InMemory.find_all one_task "s1"))).
  { apply NoDup_cons. split; [intros H; inversion H | apply NoDup_nil_2]. }
  assert (H2 : InMemory.find_by_id one_task "s1" "id1" = Some task)
    by reflexivity.
  split; [exact H1|]. split; [exact H2|].
  destruct (delete_task_twice one_task "s1" "id1" task H1 H2) as (Ha & _ & Hc).
  split; assumption.
Defined.

Lemma find_all_nil_reads (repository : InMemoryTaskRepository)
  (session_id : string) :
  InMemory.find_all repository session_id = [] ->
  (forall status,
     TaskService.get_all_tasks repository session_id status = Ok [])
  /\ (forall task_id,
        TaskService.get_task_by_id repository session_id task_id
        = Raise (HTTPException 404 "Task not found"))
  /\ (forall q, TaskService.search_tasks repository session_id q = Ok [])
  /\ TaskService.get_statistics repository session_id
     = {| TaskStats.total := 0; TaskStats.pending := 0;
          TaskStats.in_progress := 0; TaskStats.completed := 0;
          TaskStats.cancelled := 0 |}.
Proof.
  intros Hnil.
  unfold TaskService.get_all_tasks, TaskService.get_task_by_id,
    TaskService.search_tasks, TaskService.get_statistics.
  cbn [find_all find_by_id InMemoryTaskRepository_IRepository].
  unfold InMemory.find_by_id. rewrite Hnil.
  repeat split; try reflexivity.
  intros [[|c v]|]; reflexivity.
Qed.

(** X19. After [DELETE /tasks] the session is empty: every listing answers
    the empty list, every get fails with status 404, every search answers
    the empty list and all five statistics are 0. Doing it again changes
    nothing, and for a session the repository has never seen nothing
    changes at all, not even the set of sessions. *)
Theorem delete_all_tasks_empties (repository : InMemoryTaskRepository)
  (session_id : string) :
  let after := Endpoint.delete_all_tasks repository session_id in
  InMemory.find_all after session_id = []
  /\ (forall status,
        TaskService.get_all_tasks after session_id status = Ok [])
  /\ (forall task_id,
        TaskService.get_task_by_id after session_id task_id
        = Raise (HTTPException 404 "Task not found"))
  /\ (forall q, TaskService.search_tasks after session_id q = Ok [])
  /\ TaskService.get_statistics after session_id
     = {| TaskStats.total := 0; TaskStats.pending := 0;
          TaskStats.in_progress := 0; TaskStats.completed := 0;
          TaskStats.cancelled := 0 |}
  /\ Endpoint.delete_all_tasks after session_id = after
  /\ (_storage repository !! session_id = None -> after = repository).
Proof.
  intros after.
  assert (Hnil : InMemory.find_all after session_id = []).
  { subst after. unfold Endpoint.delete_all_tasks.
    destruct (_storage repository !! session_id) as [l|] eqn:E.
    - apply find_all_insert.
    - unfold InMemory.find_all. rewrite E. reflexivity. }
  split; [exact Hnil|].
  destruct (find_all_nil_reads after session_id Hnil) as (Ha & Hb & Hc & Hd).
  repeat (split; [assumption|]).
  subst after. unfold Endpoint.delete_all_tasks.
  destruct (_storage repository !! session_id) as [l|] eqn:E.
  - split; [|discriminate]. cbn [_storage].
    rewrite lookup_insert_eq, insert_insert_eq. reflexivity.
  - split; [rewrite E; reflexivity | reflexivity].
Qed.

Lemma found_session_known (repository : InMemoryTaskRepository)
  (session_id task_id : string) (i : nat) (t : TaskDict.t) :
  InMemory.first_with_id task_id (InMemory.find_all repository session_id)
  = Some (i, t) ->
  session_id ∈ dom (_storage repository).
Proof.
  unfold InMemory.find_all. intros H. apply elem_of_dom.
  destruct (_storage repository !! session_id) as [l|]; [eauto|].
  discriminate H.
Qed.

(** X20. Only the creation of a task adds a session to the repository, and
    no request removes one: an update, a deletion and a delete-all leave the
    set of sessions as it was, found or not. *)
Theorem only_creation_adds_sessions (repository : InMemoryTaskRepository)
  (now : string) (req : request) :
  dom (_storage (handle repository now req))
  = match req with
    | POST_tasks session_id _ _ => {[session_id]} ∪ dom (_storage repository)
    | _ => dom (_storage repository)
    end.
Proof.
  destruct req as [x d u|x i u|x i|x]; cbn [handle].
  - unfold TaskService.create_task.
    cbn [create InMemoryTaskRepository_IRepository InMemory.create fst _storage].
    apply dom_insert_L.
  - unfold TaskService.update_task.
    destruct (TaskUpdate.dump_is_empty u); [reflexivity|].
    cbn [update InMemoryTaskRepository_IRepository].
    unfold InMemory.update.
    destruct (InMemory.first_with_id i (InMemory.find_all repository x))
      as [[k t]|] eqn:E; [|reflexivity].
    cbn [fst _storage]. apply dom_insert_lookup_L, elem_of_dom.
    apply (found_session_known repository x i k t E).
  - unfold TaskService.delete_task.
    cbn [delete InMemoryTaskRepository_IRepository].
    unfold InMemory.delete, InMemory.find_by_id.
    destruct (InMemory.first_with_id i (InMemory.find_all repository x))
      as [[k t]|] eqn:E; [|reflexivity].
    cbn [fmap option_fmap option_map snd fst _storage].
    apply dom_insert_lookup_L, elem_of_dom.
    apply (found_session_known repository x i k t E).
  - unfold Endpoint.delete_all_tasks.
    destruct (_storage repository !! x) as [l|] eqn:E; [|reflexivity].
    cbn [_storage]. apply dom_insert_lookup_L. eauto.
Qed.

(** ** What every reachable repository satisfies *)

Lemma NoDup_map_list_remove {A B} `{EqDecision A} (f : A -> B) (x : A)
  (l : list A) :
  NoDup (List.map f l) -> NoDup (List.map f (list_remove x l)).
Proof.
  induction l as [|a l IH]; cbn; [trivial|].
  intros Hnd. apply NoDup_cons in Hnd as [Hnotin Hnd].
  destruct (decide (a = x)); [exact Hnd|].
  cbn. apply NoDup_cons. split; [|apply IH; exact Hnd].
  intros Hin. apply Hnotin.
  apply list_elem_of_In, in_map_iff in Hin as (y & Hy & Hin).
  apply list_elem_of_In, in_map_iff. exists y.
  split; [exact Hy | apply (In_list_remove _ _ _ Hin)].
Qed.

Lemma delete_all_tasks_ids (repository : InMemoryTaskRepository)
  (session_id : string) :
  InMemory.find_all (Endpoint.delete_all_tasks repository session_id) session_id
  = []
  \/ InMemory.find_all (Endpoint.delete_all_tasks repository session_id)
       session_id
     = InMemory.find_all repository session_id.
Proof.
  unfold Endpoint.delete_all_tasks.
  destruct (_storage repository !! session_id);
    [left; apply find_all_insert | right; reflexivity].
Qed.

Lemma handle_ids_unique (repository : InMemoryTaskRepository) (now : string)
  (req : request) :
  ids_unique repository ->
  match req with
  | POST_tasks session_id _ uuid =>
      InMemory.find_by_id repository session_id uuid = None
  | _ => True
  end ->
  ids_unique (handle repository now req).
Proof.
  intros Hu Hfresh s.
  destruct (decide (session_of req = s)) as [<-|Hne].
  - specialize (Hu (session_of req)).
    destruct req as [x d uuid|x i u|x i|x]; cbn [handle session_of] in *.
    + unfold TaskService.create_task.
      cbn [create InMemoryTaskRepository_IRepository InMemory.create fst].
      rewrite find_all_insert, map_app. cbn [List.map TaskDict.id].
      apply NoDup_app. split; [exact Hu|]. split; [|apply NoDup_singleton].
      intros y Hy Hin. apply list_elem_of_singleton in Hin as ->.
      unfold InMemory.find_by_id in Hfresh. apply fmap_None in Hfresh.
      unfold InMemory.first_with_id in Hfresh.
      apply list_find_None in Hfresh.
      apply list_elem_of_In, in_map_iff in Hy as (t & Ht & Hin).
      apply list_elem_of_In in Hin.
      apply (proj1 (Forall_forall _ _) Hfresh t Hin Ht).
    + destruct (update_task_preserves repository x i u now) as (Hids & _).
      cbn zeta in Hids. rewrite Hids. exact Hu.
    + unfold TaskService.delete_task.
      cbn [delete InMemoryTaskRepository_IRepository].
      unfold InMemory.delete.
      destruct (InMemory.find_by_id repository x i) as [t|];
        cbn [fst]; [|exact Hu].
      rewrite find_all_insert. apply NoDup_map_list_remove. exact Hu.
    + destruct (delete_all_tasks_ids repository x) as [-> | ->];
        [apply NoDup_nil_2 | exact Hu].
  - rewrite (find_all_partition (handle repository now req) repository s).
    + apply Hu.
    + apply (handle_writes_own repository now req (session_of req) s Hne eq_refl).
Qed.

Lemma serve_ids_unique (history : list (string * request)) :
  forall repository,
    ids_unique repository -> fresh_uuids repository history ->
    ids_unique (serve repository history).
Proof.
  induction history as [|[now req] history IH]; intros r Hu Hfresh;
    [exact Hu|].
  cbn [fresh_uuids] in Hfresh. destruct Hfresh as [Hnow Hrest].
  cbn [serve]. apply IH; [|exact Hrest].
  apply handle_ids_unique; assumption.
Qed.

(** X21. Ids stay unique as long as the generator does not collide: when
    every identifier drawn for a creation is the id of no task that its
    session holds at that moment, then after any history of requests no two
    tasks of a session share an id. *)
Theorem ids_stay_unique (history : list (string * request))
  (session_id : string) :
  fresh_uuids repository0 history ->
  NoDup (List.map TaskDict.id
           (InMemory.find_all (serve repository0 history) session_id)).
Proof.
  intros Hfresh. apply (serve_ids_unique history repository0); [|exact Hfresh].
  intros s. apply NoDup_nil_2.
Qed.

Lemma ids_stay_unique_witness :
  fresh_uuids repository0 three_tasks
  /\ NoDup (List.map TaskDict.id
              (InMemory.find_all (serve repository0 three_tasks) "s1")).
Proof.
  assert (H : fresh_uuids repository0 three_tasks).
  { cbn [fresh_uuids three_tasks]. repeat split; reflexivity. }
  split; [exact H|]. exact (ids_stay_unique three_tasks "s1" H).
Defined.

Section TextOrder.

Lemma ascii_compare_refl (c : ascii) : Ascii.compare c c = Eq.
Proof. unfold Ascii.compare. apply N.compare_refl. Qed.

Lemma string_compare_refl (s : string) : String.compare s s = Eq.
Proof.
  induction s as [|c s IH]; [reflexivity|].
  cbn. rewrite ascii_compare_refl. exact IH.
Qed.

Lemma string_leb_refl (s : string) : String.leb s s = true.
Proof. unfold String.leb. rewrite string_compare_refl. reflexivity. Qed.

Lemma string_leb_empty (s : string) : String.leb "" s = true.
Proof. destruct s; reflexivity. Qed.

Lemma string_leb_trans (a b c : string) :
  String.leb a b = true -> String.leb b c = true -> String.leb a c = true.
Proof.
  unfold String.leb. revert b c.
  induction a as [|x a IH]; intros [|y b] [|z c]; cbn;
    try discriminate; try reflexivity.
  destruct (Ascii.compare x y) eqn:Exy; try discriminate;
    destruct (Ascii.compare y z) eqn:Eyz; try discriminate.
  - apply Ascii.compare_eq_iff in Exy as ->.
    apply Ascii.compare_eq_iff in Eyz as ->.
    rewrite ascii_compare_refl. apply IH.
  - apply Ascii.compare_eq_iff in Exy as ->. rewrite Eyz. reflexivity.
  - apply Ascii.compare_eq_iff in Eyz as ->. rewrite Exy. reflexivity.
  - assert (Exz : Ascii.compare x z = Lt).
    { unfold Ascii.compare in *.
      apply N.compare_lt_iff in Exy. apply N.compare_lt_iff in Eyz.
      apply N.compare_lt_iff. exact (N.lt_trans _ _ _ Exy Eyz). }
    rewrite Exz. reflexivity.
Qed.

End TextOrder.

(** Serving a request at a reading that is not earlier than [clock] keeps
    the time stamps of every task in order. *)
Lemma handle_stamps_ordered (clock now : string)
  (repository : InMemoryTaskRepository) (req : request) :
  String.leb clock now = true ->
  stamps_ordered clock repository ->
  stamps_ordered now (handle repository now req).
Proof.
  intros Hle Hinv.
  assert (Hold : forall s t, In t (InMemory.find_all repository s) ->
            String.leb (TaskDict.created_at t) (TaskDict.updated_at t) = true
            /\ String.leb (TaskDict.updated_at t) now = true).
  { intros s t Hin. destruct (Hinv s t Hin) as [Hc Hu].
    split; [exact Hc | apply (string_leb_trans _ clock); assumption]. }
  intros s t Hin.
  destruct (decide (session_of req = s)) as [<-|Hne].
  - destruct req as [x d u|x i u|x i|x]; cbn [handle session_of] in *.
    + unfold TaskService.create_task in Hin.
      cbn [create InMemoryTaskRepository_IRepository InMemory.create fst] in Hin.
      rewrite find_all_insert in Hin.
      apply in_app_or in Hin as [Hin|[<-|[]]]; [apply (Hold x t Hin)|].
      cbn [TaskDict.created_at TaskDict.updated_at].
      split; apply string_leb_refl.
    + unfold TaskService.update_task in Hin.
      destruct (TaskUpdate.dump_is_empty u); [apply (Hold x t Hin)|].
      cbn [update InMemoryTaskRepository_IRepository] in Hin.
      unfold InMemory.update in Hin.
      destruct (InMemory.first_with_id i (InMemory.find_all repository x))
        as [[k old]|] eqn:Hfirst; cbn [fst] in Hin; [|apply (Hold x t Hin)].
      rewrite find_all_insert in Hin.
      apply In_insert in Hin as [->|Hin]; [|apply (Hold x t Hin)].
      cbn [TaskDict.created_at TaskDict.updated_at TaskDict.set_updated_at
           TaskDict.update].
      pose proof (first_with_id_In i _ k old Hfirst) as Hin.
      destruct (Hold x old Hin) as [Hc Hu].
      split; [|apply string_leb_refl].
      apply (string_leb_trans _ (TaskDict.updated_at old)); assumption.
    + unfold TaskService.delete_task in Hin.
      cbn [delete InMemoryTaskRepository_IRepository] in Hin.
      unfold InMemory.delete in Hin.
      destruct (InMemory.find_by_id repository x i) as [old|];
        cbn [fst] in Hin; [|apply (Hold x t Hin)].
      rewrite find_all_insert in Hin.
      apply In_list_remove in Hin. apply (Hold x t Hin).
    + destruct (delete_all_tasks_ids repository x) as [E|E];
        rewrite E in Hin; [destruct Hin | apply (Hold x t Hin)].
  - rewrite (find_all_partition (handle repository now req) repository s) in Hin.
    + apply (Hold s t Hin).
    + apply (handle_writes_own repository now req (session_of req) s Hne eq_refl).
Qed.

Lemma serve_stamps_ordered (history : list (string * request)) :
  forall clock repository,
    stamps_ordered clock repository ->
    nondecreasing clock (List.map fst history) = true ->
    exists clock', stamps_ordered clock' (serve repository history).
Proof.
  induction history as [|[now req] history IH]; intros clock r Hinv Hnd.
  - exists clock. exact Hinv.
  - cbn [List.map fst nondecreasing] in Hnd.
    apply andb_true_iff in Hnd as [Hle Hrest].
    cbn [serve]. apply (IH now); [|exact Hrest].
    apply (handle_stamps_ordered clock); assumption.
Qed.

(** X22. As long as the clock does not run backwards from one request to
    the next, every stored task was created no later than it was last
    updated: [created_at <= updated_at] as text, after any history of
    requests. *)
Theorem created_before_updated (history : list (string * request))
  (session_id : string) (task : TaskDict.t) :
  nondecreasing "" (List.map fst history) = true ->
  In task (InMemory.find_all (serve repository0 history) session_id) ->
  String.leb (TaskDict.created_at task) (TaskDict.updated_at task) = true.
Proof.
  intros Hnd Hin.
  destruct (serve_stamps_ordered history "" repository0) as [clock Hinv];
    [intros s t [] | exact Hnd |].
  apply (Hinv session_id task Hin).
Qed.

Lemma created_before_updated_witness :
  let task :=
    {| TaskDict.id := "id1"; TaskDict.title := Some "Plan release";
       TaskDict.description := None; TaskDict.priority := Some 3;
       TaskDict.tags := Some []; TaskDict.due_date := None;
       TaskDict.status := Some COMPLETED;
       TaskDict.created_at := t0; TaskDict.updated_at := t3 |} in
  nondecreasing "" (List.map fst three_tasks) = true
  /\ In task (InMemory.find_all (serve repository0 three_tasks) "s1")
  /\ String.leb (TaskDict.created_at task) (TaskDict.updated_at task) = true.
Proof.
  intros task.
  assert (H1 : nondecreasing "" (List.map fst three_tasks) = true)
    by reflexivity.
  assert (H2 : In task (InMemory.find_all (serve repository0 three_tasks) "s1"))
    by (left; reflexivity).
  split; [exact H1|]. split; [exact H2|].
  exact (created_before_updated three_tasks "s1" task H1 H2).
Defined.

(** ** Creation from a body, status changes, sessions *)

(** X23. From the body to the task: when [TaskCreate] accepts a body, the
    title it keeps has at least 3 characters and the tags are a list, then
    [create_task] returns the task with the drawn id, status [PENDING],
    both time stamps at the clock reading and the fields of the draft. *)
Theorem create_task_succeeds (repository : InMemoryTaskRepository)
  (session_id : string) (b : TaskCreate.body) (draft : TaskCreate.t)
  (uuid now : string) (tags : list string) :
  TaskCreate.validate b = Ok draft ->
  3 <= Py.len (TaskCreate.title draft) ->
  TaskCreate.tags draft = Some tags ->
  snd (TaskService.create_task repository session_id draft uuid now)
  = Ok {| Task.id := uuid;
          Task.title := TaskCreate.title draft;
          Task.description := TaskCreate.description draft;
          Task.priority := TaskCreate.priority draft;
          Task.status := PENDING;
          Task.tags := tags;
          Task.due_date := TaskCreate.due_date draft;
          Task.created_at := now;
          Task.updated_at := now |}.
Proof.
  intros Hv H3 Htags.
  destruct (TaskCreate_validate_fields b draft Hv)
    as ((raw & _ & Hraw) & Hp & _ & _ & Hd & _).
  apply (create_task_postcondition repository session_id draft raw uuid now tags);
    try assumption.
  - unfold TaskBase.description.
    destruct (TaskCreate.description draft) as [text|] eqn:E; [|reflexivity].
    specialize (Hd text eq_refl).
    destruct (Z.ltb_spec 1000 (Py.len text)); [lia | reflexivity].
  - unfold TaskBase.priority.
    destruct (Z.ltb_spec (TaskCreate.priority draft) 1); [lia|].
    destruct (Z.ltb_spec 4 (TaskCreate.priority draft)); [lia | reflexivity].
Qed.

Lemma create_task_succeeds_witness :
  let b := TaskCreate.mk_body (Some "  Plan release ") None (Some 3) None None in
  TaskCreate.validate b = Ok plan_release
  /\ 3 <= Py.len (TaskCreate.title plan_release)
  /\ TaskCreate.tags plan_release = Some []
  /\ snd (TaskService.create_task repository0 "s1" plan_release "id1" t0)
     = Ok {| Task.id := "id1"; Task.title := "Plan release";
             Task.description := None; Task.priority := 3;
             Task.status := PENDING; Task.tags := [];
             Task.due_date := None; Task.created_at := t0;
             Task.updated_at := t0 |}.
Proof.
  intros b.
  assert (H1 : TaskCreate.validate b = Ok plan_release) by reflexivity.
  assert (H2 : 3 <= Py.len (TaskCreate.title plan_release))
    by (vm_compute; discriminate).
  assert (H3 : TaskCreate.tags plan_release = Some []) by reflexivity.
  split; [exact H1|]. split; [exact H2|]. split; [exact H3|].
  exact (create_task_succeeds repository0 "s1" b plan_release "id1" t0 [] H1 H2 H3).
Defined.

(** X24. [PATCH /tasks/{task_id}/status] refuses no transition: whatever the
    stored status of a task that is found, afterwards it is the status
    asked for, [updated_at] is the clock reading and every other field is
    as before; the answer is what [Task] makes of the stored dict, so it is
    never the 400 of an empty change set, and a task returned has the
    status asked for. *)
Theorem patch_status_sets_status (repository : InMemoryTaskRepository)
  (session_id task_id now : string) (status : TaskStatus) (task : TaskDict.t) :
  InMemory.find_by_id repository session_id task_id = Some task ->
  let patched :=
    Endpoint.update_task_status repository task_id status session_id now in
  let task' :=
    {| TaskDict.id := TaskDict.id task;
       TaskDict.title := TaskDict.title task;
       TaskDict.description := TaskDict.description task;
       TaskDict.priority := TaskDict.priority task;
       TaskDict.tags := TaskDict.tags task;
       TaskDict.due_date := TaskDict.due_date task;
       TaskDict.status := Some status;
       TaskDict.created_at := TaskDict.created_at task;
       TaskDict.updated_at := now |} in
  InMemory.find_by_id (fst patched) session_id task_id = Some task'
  /\ snd patched = Task.new task'
  /\ (forall T, snd patched = Ok T -> Task.status T = status).
Proof.
  intros Hfound patched task'.
  unfold InMemory.find_by_id in Hfound.
  destruct (InMemory.first_with_id task_id
              (InMemory.find_all repository session_id))
    as [[i t]|] eqn:Hfirst; [|discriminate].
  cbn in Hfound. injection Hfound as ->.
  destruct (update_found repository session_id task_id
              (TaskUpdate.mk None None (Some (Some status)) None None None)
              now i task Hfirst) as [Hupd Hafter].
  subst patched. unfold Endpoint.update_task_status, TaskService.update_task.
  cbn [TaskUpdate.dump_is_empty TaskUpdate.title TaskUpdate.description
       TaskUpdate.status TaskUpdate.priority TaskUpdate.tags
       TaskUpdate.due_date update InMemoryTaskRepository_IRepository].
  rewrite Hupd in *. cbn [fst snd] in *.
  assert (Hsnd : Task.new
                   (TaskDict.set_updated_at
                      (TaskDict.update task
                         (TaskUpdate.mk None None (Some (Some status))
                            None None None)) now)
                 = Task.new task') by reflexivity.
  split; [unfold InMemory.find_by_id; rewrite Hafter; reflexivity|].
  split; [exact Hsnd|].
  intros T HT. rewrite Hsnd in HT.
  apply Task_new_fields in HT as (_ & _ & _ & _ & Hst & _).
  cbn in Hst. congruence.
Qed.

Lemma patch_status_sets_status_witness :
  let task :=
    {| TaskDict.id := "id1"; TaskDict.title := Some "Plan release";
       TaskDict.description := None; TaskDict.priority := Some 3;
       TaskDict.tags := Some []; TaskDict.due_date := None;
       TaskDict.status := Some COMPLETED;
       TaskDict.created_at := t0; TaskDict.updated_at := t3 |} in
  let patched :=
    Endpoint.update_task_status (serve repository0 three_tasks)
      "id1" PENDING "s1" t4 in
  InMemory.find_by_id (serve repository0 three_tasks) "s1" "id1" = Some task
  /\ forall T, snd patched = Ok T -> Task.status T = PENDING.
Proof.
  intros task patched.
  assert (H : InMemory.find_by_id (serve repository0 three_tasks) "s1" "id1"
              = Some task) by reflexivity.
  split; [exact H|].
  destruct (patch_status_sets_status (serve repository0 three_tasks)
              "s1" "id1" t4 PENDING task H) as (_ & _ & Hc).
  exact Hc.
Defined.

(** X25. Session cookies. With an identifier generator that yields no empty
    string, the session id handed out is never empty; a cookie is set only
    when the request carried no session id or an empty one, and then it is
    the one cookie ["session_id"] holding the id handed out, [httponly],
    [secure], [samesite] none, for 2592000 seconds; and a request that
    brings that id back as its cookie gets the same session and no new
    cookie. *)
Theorem session_cookie_round_trip (cookies : gmap string string)
  (response : list SessionManager.cookie) (uuid : string) :
  uuid <> "" ->
  let got := get_session_id cookies response uuid in
  fst got <> ""
  /\ (cookies !! "session_id" = Some (fst got) /\ snd got = response
      \/ fst got = uuid
         /\ snd got
            = (response
               ++ [ {| SessionManager.key := "session_id";
                       SessionManager.value := uuid;
                       SessionManager.httponly := true;
                       SessionManager.samesite := "none";
                       SessionManager.secure := true;
                       SessionManager.max_age := 2592000 |} ])%list)
  /\ (forall (cookies' : gmap string string)
             (response' : list SessionManager.cookie) (uuid' : string),
        cookies' !! "session_id" = Some (fst got) ->
        get_session_id cookies' response' uuid' = (fst got, response')).
Proof.
  intros Huuid got.
  assert (Hback : forall sid, sid <> "" ->
            forall (cookies' : gmap string string)
                   (response' : list SessionManager.cookie) (uuid' : string),
              cookies' !! "session_id" = Some sid ->
              get_session_id cookies' response' uuid' = (sid, response')).
  { intros sid Hsid cookies' response' uuid' Hc.
    unfold get_session_id, SessionManager.get_or_create_session.
    rewrite Hc. destruct sid; [contradiction Hsid; reflexivity | reflexivity]. }
  subst got. unfold get_session_id, SessionManager.get_or_create_session.
  destruct (cookies !! "session_id") as [[|c sid]|] eqn:E; cbn [Py.truthy fst snd].
  - split; [exact Huuid|]. split; [right; split; reflexivity|].
    apply Hback. exact Huuid.
  - split; [discriminate|]. split; [left; split; reflexivity|].
    apply Hback. discriminate.
  - split; [exact Huuid|]. split; [right; split; reflexivity|].
    apply Hback. exact Huuid.
Qed.

Lemma session_cookie_round_trip_witness :
  let got := get_session_id ∅ [] "0b2f" in
  "0b2f" <> ""
  /\ fst got = "0b2f"
  /\ get_session_id {[ "session_id" := fst got ]} [] "77aa" = (fst got, []).
Proof.
  intros got.
  assert (H : "0b2f" <> "") by discriminate.
  destruct (session_cookie_round_trip ∅ [] "0b2f" H) as (_ & _ & Hback).
  split; [exact H|]. split; [reflexivity|].
  apply Hback. reflexivity.
Defined.

(** X26. The statistics account for every stored task, in every repository:
    [total] is the length of the partition, each bucket is the number of
    tasks stored with exactly that status, and the four buckets together
    with the tasks stored with status [None] make up [total]. *)
Theorem statistics_account_for_every_task
  (repository : InMemoryTaskRepository) (session_id : string) :
  let tasks := InMemory.find_all repository session_id in
  let stats := TaskService.get_statistics repository session_id in
  TaskStats.total stats = Z.of_nat (length tasks)
  /\ TaskStats.pending stats = count (has_status (Some PENDING)) tasks
  /\ TaskStats.in_progress stats = count (has_status (Some IN_PROGRESS)) tasks
  /\ TaskStats.completed stats = count (has_status (Some COMPLETED)) tasks
  /\ TaskStats.cancelled stats = count (has_status (Some CANCELLED)) tasks
  /\ TaskStats.pending stats + TaskStats.in_progress stats
     + TaskStats.completed stats + TaskStats.cancelled stats
     + count (has_status None) tasks
     = TaskStats.total stats.
Proof. exact (statistics_tally repository session_id). Qed.
